(** * snapy: a shallow embedding of [snapy/__init__.py]

    The Python module is a client of a private HTTP API.  This development
    embeds its module-level helpers (magic-byte classification, extension
    lookup) as pure functions and the [Snapchat] class as a state-and-
    exception monad over the object's fields and an abstract outside world.
    The helpers imported from [snapy.utils] are not part of the module and
    appear as fields of a record of externals. *)

From Stdlib Require Import ZArith List Lia DecimalString.
From Stdlib.Strings Require Import String Ascii Byte.
From stdpp Require Import base option list gmap strings.
Import ListNotations.

Local Open Scope Z_scope.

(** ** hashlib.sha256 and hmac (Python standard library)

    [login] signs with [hmac.new(key, msg, sha256).hexdigest()].  The digest
    is FIPS 180-4 SHA-256 and the keyed construction RFC 2104 HMAC; both are
    written out here over 32-bit words held in [Z]. *)
Module SHA256.

Definition mask32 : Z := 4294967295.

Definition add32 (x y : Z) : Z := Z.land (x + y) mask32.

Definition rotr (n x : Z) : Z :=
  Z.lor (Z.shiftr x n) (Z.land (Z.shiftl x (32 - n)) mask32).

Definition shr (n x : Z) : Z := Z.shiftr x n.

Definition not32 (x : Z) : Z := Z.lxor x mask32.

Definition Ch (x y z : Z) : Z :=
  Z.lxor (Z.land x y) (Z.land (not32 x) z).

Definition Maj (x y z : Z) : Z :=
  Z.lxor (Z.lxor (Z.land x y) (Z.land x z)) (Z.land y z).

Definition bsig0 (x : Z) : Z := Z.lxor (Z.lxor (rotr 2 x) (rotr 13 x)) (rotr 22 x).
Definition bsig1 (x : Z) : Z := Z.lxor (Z.lxor (rotr 6 x) (rotr 11 x)) (rotr 25 x).
Definition ssig0 (x : Z) : Z := Z.lxor (Z.lxor (rotr 7 x) (rotr 18 x)) (shr 3 x).
Definition ssig1 (x : Z) : Z := Z.lxor (Z.lxor (rotr 17 x) (rotr 19 x)) (shr 10 x).

(** Round constants: the first 32 bits of the fractional parts of the cube
    roots of the first 64 primes. *)
Definition round_constants : list Z :=
  [ 1116352408; 1899447441; 3049323471; 3921009573; 961987163; 1508970993;
    2453635748; 2870763221; 3624381080; 310598401; 607225278; 1426881987;
    1925078388; 2162078206; 2614888103; 3248222580; 3835390401; 4022224774;
    264347078; 604807628; 770255983; 1249150122; 1555081692; 1996064986;
    2554220882; 2821834349; 2952996808; 3210313671; 3336571891; 3584528711;
    113926993; 338241895; 666307205; 773529912; 1294757372; 1396182291;
    1695183700; 1986661051; 2177026350; 2456956037; 2730485921; 2820302411;
    3259730800; 3345764771; 3516065817; 3600352804; 4094571909; 275423344;
    430227734; 506948616; 659060556; 883997877; 958139571; 1322822218;
    1537002063; 1747873779; 1955562222; 2024104815; 2227730452; 2361852424;
    2428436474; 2756734187; 3204031479; 3329325298 ].

(** The eight working words. *)
Record words8 : Type := Words8 {
  wa : Z; wb : Z; wc : Z; wd : Z; we : Z; wf : Z; wg : Z; wh : Z
}.

(** Initial hash value: square roots of the first 8 primes. *)
Definition initial_hash : words8 :=
  Words8 1779033703 3144134277 1013904242 2773480762
         1359893119 2600822924 528734635 1541459225.

Definition round (s : words8) (kw : Z * Z) : words8 :=
  let t1 := add32 (add32 (add32 (add32 (wh s) (bsig1 (we s)))
                                (Ch (we s) (wf s) (wg s))) (fst kw)) (snd kw) in
  let t2 := add32 (bsig0 (wa s)) (Maj (wa s) (wb s) (wc s)) in
  Words8 (add32 t1 t2) (wa s) (wb s) (wc s) (add32 (wd s) t1) (we s) (wf s) (wg s).

(** Message schedule: 16 block words extended to 64. *)
Definition next_word (w : list Z) : Z :=
  let t := length w in
  add32 (add32 (add32 (ssig1 (nth (t - 2)%nat w 0)) (nth (t - 7)%nat w 0))
               (ssig0 (nth (t - 15)%nat w 0))) (nth (t - 16)%nat w 0).

Fixpoint extend (n : nat) (w : list Z) : list Z :=
  match n with
  | O => w
  | S n' => extend n' (w ++ [next_word w])
  end.

Definition schedule (block : list Z) : list Z := extend 48 block.

Definition compress (h : words8) (block : list Z) : words8 :=
  let s := fold_left round (combine round_constants (schedule block)) h in
  Words8 (add32 (wa h) (wa s)) (add32 (wb h) (wb s)) (add32 (wc h) (wc s))
         (add32 (wd h) (wd s)) (add32 (we h) (we s)) (add32 (wf h) (wf s))
         (add32 (wg h) (wg s)) (add32 (wh h) (wh s)).

(** Bytes are numbers in [0, 255]. *)
Definition be_bytes (k : nat) (x : Z) : list Z :=
  map (fun i => Z.land (Z.shiftr x (8 * Z.of_nat i)) 255) (rev (seq 0 k)).

Definition pad (msg : list Z) : list Z :=
  let len := Z.of_nat (length msg) in
  msg ++ [128] ++ repeat 0 (Z.to_nat ((55 - len) mod 64)) ++ be_bytes 8 (8 * len).

Fixpoint words_of_bytes (l : list Z) : list Z :=
  match l with
  | a :: b :: c :: d :: r =>
      Z.lor (Z.lor (Z.lor (Z.shiftl a 24) (Z.shiftl b 16)) (Z.shiftl c 8)) d
      :: words_of_bytes r
  | _ => []
  end.

Fixpoint blocks (n : nat) (l : list Z) : list (list Z) :=
  match n with
  | O => []
  | S n' => words_of_bytes (firstn 64 l) :: blocks n' (skipn 64 l)
  end.

Definition hash_words (msg : list Z) : words8 :=
  let p := pad msg in
  fold_left compress (blocks (length p / 64) p) initial_hash.

Definition digest_of_words (h : words8) : list Z :=
  be_bytes 4 (wa h) ++ be_bytes 4 (wb h) ++ be_bytes 4 (wc h) ++ be_bytes 4 (wd h) ++
  be_bytes 4 (we h) ++ be_bytes 4 (wf h) ++ be_bytes 4 (wg h) ++ be_bytes 4 (wh h).

(** [sha256(msg).digest()] *)
Definition digest (msg : list Z) : list Z := digest_of_words (hash_words msg).

Definition block_size : nat := 64.

(** [hmac.new(key, msg, sha256).digest()]: keys longer than a block are
    hashed first, shorter ones padded with zero bytes. *)
Definition hmac_key (key : list Z) : list Z :=
  let k := if (block_size <? length key)%nat then digest key else key in
  k ++ repeat 0 (block_size - length k)%nat.

Definition hmac_words (key msg : list Z) : words8 :=
  let k := hmac_key key in
  let inner := digest (map (Z.lxor 54) k ++ msg) in
  hash_words (map (Z.lxor 92) k ++ inner).

Definition hex_digit (n : Z) : ascii :=
  nth (Z.to_nat n) (list_ascii_of_string "0123456789abcdef") "0"%char.

Definition hex_of_bytes (l : list Z) : list ascii :=
  flat_map (fun b => [hex_digit (Z.shiftr b 4); hex_digit (Z.land b 15)]) l.

Definition bytes_of_string (s : string) : list Z :=
  map (fun b => Z.of_N (Byte.to_N b)) (list_byte_of_string s).

(** [sha256(s).hexdigest()] *)
Definition sha256_hexdigest (s : string) : string :=
  string_of_list_ascii (hex_of_bytes (digest (bytes_of_string s))).

(** [hmac.new(key, msg, sha256).hexdigest()] *)
Definition hmac_sha256_hexdigest (key msg : string) : string :=
  string_of_list_ascii
    (hex_of_bytes (digest_of_words (hmac_words (bytes_of_string key) (bytes_of_string msg)))).

End SHA256.

Local Open Scope string_scope.

(** ** Python values

    The values the module handles: [None], booleans, integers, text, lists
    and dictionaries with text keys (what [r.json()] produces, floats left
    out).  Media payloads are byte strings and kept as [list byte]. *)
#[warnings="-register-all"]
Inductive pyval : Type :=
  | PNone
  | PBool (b : bool)
  | PInt (z : Z)
  | PStr (s : string)
  | PList (l : list pyval)
  | PDict (d : gmap string pyval).

(** Exceptions, by the place that raises them. *)
Inductive exn : Type :=
  | LoginError (arg : pyval)      (* [raise Exception(...)] at the end of [login] *)
  | ValueError (msg : string)     (* raised by [upload] *)
  | KeyError (key : string)       (* [d[k]] on a missing key *)
  | TypeError                     (* an operation applied to the wrong kind of value *)
  | AttributeError                (* [.get] on something that is not a dict *)
  | UnicodeEncodeError            (* [str(u)] on non-ASCII text *)
  | Foreign (what : string).      (* raised inside [snapy.utils] or a library *)

(** What a call to code outside the module comes back with.  Whatever it
    throws reaches the module as [Foreign], so [LoginError] marks the one
    [raise] of [login] and nothing else. *)
Inductive ext_result (A : Type) : Type :=
  | Returned (a : A)
  | Threw (what : string).
Arguments Returned {A} a.
Arguments Threw {A} what.

Inductive result (A : Type) : Type :=
  | Ok (a : A)
  | Raise (e : exn).
Arguments Ok {A} a.
Arguments Raise {A} e.

Definition of_ext {A : Type} (r : ext_result A) : result A :=
  match r with
  | Returned a => Ok a
  | Threw what => Raise (Foreign what)
  end.

Definition is_none (v : pyval) : bool :=
  match v with PNone => true | _ => false end.

(** [x == n] for an integer constant [n]: Python compares booleans as the
    integers 0 and 1. *)
Definition py_eq_int (v : pyval) (n : Z) : bool :=
  match v with
  | PInt z => Z.eqb z n
  | PBool b => Z.eqb (if b then 1 else 0) n
  | _ => false
  end.

(** [x == s] for a text constant [s]. *)
Definition py_eq_str (v : pyval) (s : string) : bool :=
  match v with
  | PStr t => String.eqb t s
  | _ => false
  end.

Fixpoint str_contains (k s : string) : bool :=
  String.prefix k s ||
  match s with
  | EmptyString => false
  | String _ s' => str_contains k s'
  end.

(** [k in v] for a text [k]: key membership on a dict, substring test on
    text, element test on a list, [TypeError] on anything else. *)
Definition py_in (k : string) (v : pyval) : result bool :=
  match v with
  | PDict d => Ok (bool_decide (is_Some (d !! k)))
  | PStr s => Ok (str_contains k s)
  | PList l => Ok (existsb (fun x => py_eq_str x k) l)
  | _ => Raise TypeError
  end.

(** [v[k]] for a text [k]. *)
Definition py_getitem (v : pyval) (k : string) : result pyval :=
  match v with
  | PDict d => match d !! k with Some x => Ok x | None => Raise (KeyError k) end
  | _ => Raise TypeError
  end.

(** [v.get(k, dflt)] *)
Definition py_get (v : pyval) (k : string) (dflt : pyval) : result pyval :=
  match v with
  | PDict d => Ok (default dflt (d !! k))
  | _ => Raise AttributeError
  end.

Definition is_ascii (s : string) : bool :=
  forallb (fun c => (nat_of_ascii c <? 128)%nat) (list_ascii_of_string s).

Definition str_of_Z (z : Z) : string :=
  NilZero.string_of_int (Z.to_int z).

(** A dict display [{k1: v1, ...}]; later entries win. *)
Definition dict (kvs : list (string * pyval)) : gmap string pyval :=
  list_to_map (rev kvs).

(** [s[lo:hi]] with constant non-negative bounds: never raises. *)
Definition slice {A : Type} (lo hi : nat) (l : list A) : list A :=
  firstn (hi - lo) (skipn lo l).

Definition str_slice (lo hi : nat) (s : string) : string :=
  string_of_list_ascii (slice lo hi (list_ascii_of_string s)).

(** ** Module-level helpers of [snapy/__init__.py] *)

Definition MEDIA_IMAGE : Z := 0.
Definition MEDIA_VIDEO : Z := 1.
Definition MEDIA_VIDEO_NOAUDIO : Z := 2.

Definition FRIEND_CONFIRMED : Z := 0.
Definition FRIEND_UNCONFIRMED : Z := 1.
Definition FRIEND_BLOCKED : Z := 2.
Definition PRIVACY_EVERYONE : Z := 0.
Definition PRIVACY_FRIENDS : Z := 1.

#[global] Instance byte_eq_decision : EqDecision byte := Byte.byte_eq_dec.

(** [a == b] on byte strings. *)
Definition bytes_eqb (a b : list byte) : bool :=
  bool_decide (a = b).

Definition is_video (data : list byte) : bool :=
  if bytes_eqb (slice 0 2 data) [x00; x00] then true else false.

Definition is_image (data : list byte) : bool :=
  if bytes_eqb (slice 0 2 data) [xff; xd8] then true else false.

Definition is_zip (data : list byte) : bool :=
  if bytes_eqb (slice 0 2 data) [x50; x4b] then true else false.

Definition get_file_extension (media_type : pyval) : string :=
  if py_eq_int media_type MEDIA_VIDEO || py_eq_int media_type MEDIA_VIDEO_NOAUDIO
  then "mp4"
  else if py_eq_int media_type MEDIA_IMAGE then "jpg"
  else "".

Definition get_media_type (data : list byte) : pyval :=
  if is_video data then PInt MEDIA_VIDEO
  else if is_image data then PInt MEDIA_IMAGE
  else if is_zip data then PInt MEDIA_VIDEO
  else PNone.

(** ** The object and the outside world *)

(** The fields of a [Snapchat] object.  Instants ([datetime] values) are
    integers on one time line. *)
Record Snapchat : Type := mkSnapchat {
  username : pyval;
  auth_token : pyval;
  gmail : pyval;
  gpasswd : pyval;
  gauth : pyval;
  expiry : Z
}.

(** The arguments [_request] hands to [snapy.utils.request], in order. *)
Record RequestArgs : Type := mkRequestArgs {
  rq_endpoint : string;
  rq_auth_token : pyval;
  rq_data : option (gmap string pyval);
  rq_params : option (gmap string pyval);
  rq_files : option (gmap string (list byte));
  rq_raise_for_status : bool;
  rq_req_type : string;
  rq_moreheaders : gmap string pyval
}.

(** What the module reads off a response object: [r.content], [r.json()]. *)
Record Response : Type := mkResponse {
  content : list byte;
  json : ext_result pyval
}.

(** The calls that leave the process. *)
Inductive Event : Type :=
  | EvGetAuthToken (g p : pyval)       (* the identity provider was asked for a token *)
  | EvRequest (a : RequestArgs).       (* an API request was handed to the transport *)

(** Everything imported from [snapy.utils], the clock, the file system and
    the two library printers whose output depends on hash order.  Each
    effectful entry reads and advances an abstract world and may raise. *)
Record Externals : Type := mkExternals {
  World : Type;
  timestamp : World -> ext_result pyval * World;
  datetime_now : World -> Z * World;
  get_auth_token : pyval -> pyval -> World -> ext_result (pyval * Z) * World;
  request : RequestArgs -> World -> ext_result Response * World;
  STATIC_TOKEN : string;
  make_request_token : string -> string -> World -> ext_result string * World;
  get_attestation : string -> string -> string -> World -> ext_result pyval * World;
  get_client_auth_token : string -> string -> string -> World -> ext_result pyval * World;
  decrypt_story : list byte -> pyval -> pyval -> World -> ext_result (list byte) * World;
  make_media_id : pyval -> World -> ext_result pyval * World;
  path_exists : string -> World -> bool * World;
  read_file : string -> World -> ext_result (list byte) * World;
  json_dumps : pyval -> string;
  py_repr : pyval -> string
}.

(** The signature sent as [dsig]: lines 151 and 162 of [login]. *)
Definition dsig_string (username password now req_token : string) : string :=
  username ++ "|" ++ password ++ "|" ++ now ++ "|" ++ req_token.

Definition dsig (key username password now req_token : string) : string :=
  str_slice 0 20
    (SHA256.hmac_sha256_hexdigest key (dsig_string username password now req_token)).

Definition dquote : string := String (ascii_of_nat 34) EmptyString.

Definition with_username (v : pyval) (s : Snapchat) : Snapchat :=
  mkSnapchat v (auth_token s) (gmail s) (gpasswd s) (gauth s) (expiry s).
Definition with_auth_token (v : pyval) (s : Snapchat) : Snapchat :=
  mkSnapchat (username s) v (gmail s) (gpasswd s) (gauth s) (expiry s).
Definition with_gmail (v : pyval) (s : Snapchat) : Snapchat :=
  mkSnapchat (username s) (auth_token s) v (gpasswd s) (gauth s) (expiry s).
Definition with_gpasswd (v : pyval) (s : Snapchat) : Snapchat :=
  mkSnapchat (username s) (auth_token s) (gmail s) v (gauth s) (expiry s).
Definition with_gauth (v : pyval) (s : Snapchat) : Snapchat :=
  mkSnapchat (username s) (auth_token s) (gmail s) (gpasswd s) v (expiry s).
Definition with_expiry (t : Z) (s : Snapchat) : Snapchat :=
  mkSnapchat (username s) (auth_token s) (gmail s) (gpasswd s) (gauth s) t.

(** [Snapchat.__init__]; [datetime.fromtimestamp(0)] is instant 0. *)
Definition __init__ : Snapchat :=
  mkSnapchat PNone PNone PNone PNone PNone 0.

(** ** The monad of methods

    A method runs on the object and the world and yields a value or an
    exception, the object and the world as it left them (an exception does
    not undo assignments already made), and the events it emitted. *)
Record Out (W A : Type) : Type := mkOut {
  out_res : result A;
  out_self : Snapchat;
  out_world : W;
  out_events : list Event
}.
Arguments mkOut {W A} _ _ _ _.
Arguments out_res {W A} _.
Arguments out_self {W A} _.
Arguments out_world {W A} _.
Arguments out_events {W A} _.

Definition M (W A : Type) : Type := Snapchat -> W -> Out W A.

Definition ret {W A : Type} (a : A) : M W A :=
  fun s w => mkOut (Ok a) s w [].

Definition raise {W A : Type} (e : exn) : M W A :=
  fun s w => mkOut (Raise e) s w [].

Definition bind {W A B : Type} (m : M W A) (k : A -> M W B) : M W B :=
  fun s w =>
    match m s w with
    | mkOut (Ok a) s1 w1 evs1 =>
        match k a s1 w1 with
        | mkOut r s2 w2 evs2 => mkOut r s2 w2 (evs1 ++ evs2)
        end
    | mkOut (Raise e) s1 w1 evs1 => mkOut (Raise e) s1 w1 evs1
    end.

Notation "x <- m ;; k" := (bind m (fun x => k))
  (at level 100, m at next level, right associativity, only parsing).
Notation "m ;;; k" := (bind m (fun _ => k))
  (at level 100, right associativity, only parsing).

Definition lift {W A : Type} (r : result A) : M W A :=
  fun s w => mkOut r s w [].

(** [self.f] *)
Definition read {W A : Type} (f : Snapchat -> A) : M W A :=
  fun s w => mkOut (Ok (f s)) s w [].

(** [self.f = v] *)
Definition assign {W : Type} (upd : Snapchat -> Snapchat) : M W unit :=
  fun s w => mkOut (Ok tt) (upd s) w [].

(** A call into the world that may raise. *)
Definition call {W A : Type} (f : W -> ext_result A * W) : M W A :=
  fun s w => match f w with (r, w') => mkOut (of_ext r) s w' [] end.

(** A call into the world that cannot raise. *)
Definition ask {W A : Type} (f : W -> A * W) : M W A :=
  fun s w => match f w with (a, w') => mkOut (Ok a) s w' [] end.

Definition emit {W : Type} (ev : Event) : M W unit :=
  fun s w => mkOut (Ok tt) s w [ev].

(** ** The methods of [Snapchat] *)
Section Methods.

Context (E : Externals).

Definition Meth (A : Type) : Type := M (World E) A.

Definition self_username : Meth pyval := read username.
Definition self_auth_token : Meth pyval := read auth_token.
Definition self_gmail : Meth pyval := read gmail.
Definition self_gpasswd : Meth pyval := read gpasswd.
Definition self_gauth : Meth pyval := read gauth.
Definition self_expiry : Meth Z := read expiry.

(** [str(v)] in Python 2 on a decoded JSON value. *)
Definition py_str (v : pyval) : result string :=
  match v with
  | PNone => Ok "None"
  | PBool true => Ok "True"
  | PBool false => Ok "False"
  | PInt z => Ok (str_of_Z z)
  | PStr s => if is_ascii s then Ok s else Raise UnicodeEncodeError
  | PList _ | PDict _ => Ok (py_repr E v)
  end.

(** [str(timestamp())] *)
Definition str_timestamp : Meth string :=
  t <- call (timestamp E) ;;
  lift (py_str t).

(** [get_auth_token(g, p)] from [snapy.utils], with its event. *)
Definition call_get_auth_token (g p : pyval) : Meth (pyval * Z) :=
  emit (EvGetAuthToken g p) ;;;
  call (get_auth_token E g p).

Definition _request (endpoint : string) (data params : option (gmap string pyval))
    (files : option (gmap string (list byte))) (raise_for_status : bool)
    (req_type : string) (moreheaders : gmap string pyval) : Meth Response :=
  tok <- self_auth_token ;;
  let a := mkRequestArgs endpoint tok data params files
                         raise_for_status req_type moreheaders in
  emit (EvRequest a) ;;;
  call (request E a).

Definition _unset_auth : Meth unit :=
  assign (with_username PNone) ;;;
  assign (with_auth_token PNone).

Definition _get_gauth : Meth pyval :=
  now <- ask (datetime_now E) ;;
  exp <- self_expiry ;;
  (if now >=? exp
   then
     g <- self_gmail ;;
     p <- self_gpasswd ;;
     gauth_token <- call_get_auth_token g p ;;
     assign (with_gauth (fst gauth_token)) ;;;
     assign (with_expiry (snd gauth_token))
   else ret tt) ;;;
  self_gauth.

Definition _get_device_token : Meth pyval :=
  g <- _get_gauth ;;
  r <- _request "/loq/device_id" None (Some (dict [("gauth", g)])) None
                true "post" ∅ ;;
  lift (of_ext (json r)).

Definition restore_token (username auth_token gmail gpasswd : pyval) : Meth unit :=
  assign (with_username username) ;;;
  assign (with_auth_token auth_token) ;;;
  assign (with_gmail gmail) ;;;
  assign (with_gpasswd gpasswd) ;;;
  gauth_token <- call_get_auth_token gmail gpasswd ;;
  assign (with_gauth (fst gauth_token)) ;;;
  assign (with_expiry (snd gauth_token)).

(** [login], lines 143 to 176: everything up to [result = r.json()]. *)
Definition login_submit (username password : string) (gmail gpasswd : pyval)
    : Meth pyval :=
  assign (with_gmail gmail) ;;;
  assign (with_gpasswd gpasswd) ;;;
  now <- str_timestamp ;;
  req_token <- call (make_request_token E (STATIC_TOKEN E) now) ;;
  gauth_token <- call_get_auth_token gmail gpasswd ;;
  assign (with_gauth (fst gauth_token)) ;;;
  assign (with_expiry (snd gauth_token)) ;;;
  dtoken <- _get_device_token ;;
  _unset_auth ;;;
  attestation <- call (get_attestation E username password now) ;;
  dtoken1v <- lift (py_getitem dtoken "dtoken1v") ;;
  key <- lift (py_str dtoken1v) ;;
  dtoken1i <- lift (py_getitem dtoken "dtoken1i") ;;
  g <- _get_gauth ;;
  client_auth <- call (get_client_auth_token E username password now) ;;
  signature <- lift (py_getitem client_auth "signature") ;;
  r <- _request "/loq/login"
         (Some (dict [("username", PStr username);
                      ("password", PStr password);
                      ("height", PInt 1280);
                      ("width", PInt 720);
                      ("max_video_height", PInt 640);
                      ("max_video_width", PInt 480);
                      ("dsig", PStr (dsig key username password now req_token));
                      ("dtoken1i", dtoken1i);
                      ("ptoken", PStr "ie");
                      ("attestation", attestation);
                      ("sflag", PInt 1);
                      ("application_id", PStr "com.snapchat.android");
                      ("req_token", PStr req_token)]))
         (Some (dict [("now", PStr now); ("gauth", g)]))
         None true "post"
         (dict [("X-Snapchat-Client-Auth", signature)]) ;;
  lift (of_ext (json r)).

(** [login], lines 178 to 189: what is done with [result]. *)
Definition login_finish (username : string) (result : pyval) : Meth pyval :=
  has_updates <- lift (py_in "updates_response" result) ;;
  (if has_updates : bool
   then
     ur <- lift (py_getitem result "updates_response") ;;
     has_token <- lift (py_in "auth_token" ur) ;;
     (if has_token : bool
      then
        ur1 <- lift (py_getitem result "updates_response") ;;
        tok <- lift (py_getitem ur1 "auth_token") ;;
        assign (with_auth_token tok)
      else ret tt) ;;;
     ur2 <- lift (py_getitem result "updates_response") ;;
     has_name <- lift (py_in "username" ur2) ;;
     (if has_name : bool
      then assign (with_username (PStr username))
      else ret tt)
   else ret tt) ;;;
  u <- self_username ;;
  t <- self_auth_token ;;
  (if is_none u && is_none t
   then
     msg <- lift (py_get result "message" (PStr "unknown error")) ;;
     raise (LoginError msg)
   else ret tt) ;;;
  ret result.

Definition login (username password : string) (gmail gpasswd : pyval) : Meth pyval :=
  result <- login_submit username password gmail gpasswd ;;
  login_finish username result.

Definition logout : Meth bool :=
  u <- self_username ;;
  r <- _request "logout" (Some (dict [("username", u)])) None None true "post" ∅ ;;
  ret (Nat.eqb (length (content r)) 0).

Definition get_updates (update_timestamp : pyval) : Meth pyval :=
  now <- str_timestamp ;;
  u <- self_username ;;
  g <- _get_gauth ;;
  r <- _request "/loq/all_updates"
         (Some (dict [("timestamp", PStr now);
                      ("username", u);
                      ("height", PInt 1280);
                      ("width", PInt 720);
                      ("max_video_height", PInt 640);
                      ("max_video_width", PInt 480)]))
         (Some (dict [("now", PStr now); ("gauth", g)]))
         None true "post" ∅ ;;
  result <- lift (of_ext (json r)) ;;
  has_token <- lift (py_in "auth_token" result) ;;
  (if has_token : bool
   then
     tok <- lift (py_getitem result "auth_token") ;;
     assign (with_auth_token tok)
   else ret tt) ;;;
  ret result.

Definition get_story_blob (story_id story_key story_iv : pyval) : Meth (list byte) :=
  now <- str_timestamp ;;
  r <- _request "/bq/story_blob" (Some (dict [("story_id", story_id)])) None None
                false "get" ∅ ;;
  call (decrypt_story E (content r) story_key story_iv).

Definition get_blob (snap_id : pyval) : Meth (list byte) :=
  now <- str_timestamp ;;
  u <- self_username ;;
  g <- _get_gauth ;;
  r <- _request "/bq/blob"
         (Some (dict [("id", snap_id); ("timestamp", PStr now); ("username", u)]))
         (Some (dict [("now", PStr now); ("gauth", g)]))
         None true "get" ∅ ;;
  ret (content r).

Definition send_events (events data : pyval) : Meth bool :=
  now <- str_timestamp ;;
  let data := if is_none data then PDict ∅ else data in
  u <- self_username ;;
  g <- _get_gauth ;;
  r <- _request "/bq/update_snaps"
         (Some (dict [("events", PStr (json_dumps E events));
                      ("json", PStr (json_dumps E data));
                      ("username", u)]))
         (Some (dict [("now", PStr now); ("gauth", g)]))
         None true "post" ∅ ;;
  ret (Nat.eqb (length (content r)) 0).

Definition update_privacy (friends_only : bool) : Meth bool :=
  let setting := fun f : bool => if f then PRIVACY_FRIENDS else PRIVACY_EVERYONE in
  u <- self_username ;;
  r <- _request "settings"
         (Some (dict [("username", u);
                      ("action", PStr "updatePrivacy");
                      ("privacySetting", PInt (setting friends_only))]))
         None None true "post" ∅ ;;
  j <- lift (of_ext (json r)) ;;
  param <- lift (py_get j "param" PNone) ;;
  ret (py_eq_str param (str_of_Z (setting friends_only))).

Definition add_friend (username : string) : Meth pyval :=
  now <- str_timestamp ;;
  u <- self_username ;;
  g <- _get_gauth ;;
  r <- _request "/bq/friend"
         (Some (dict [("action", PStr "add");
                      ("friend", PStr username);
                      ("timestamp", PStr now);
                      ("username", u);
                      ("added_by", PStr "ADDED_BY_USERNAME")]))
         (Some (dict [("now", PStr now); ("gauth", g)]))
         None true "post" ∅ ;;
  lift (of_ext (json r)).

Definition delete_friend (username : string) : Meth pyval :=
  u <- self_username ;;
  r <- _request "friend"
         (Some (dict [("action", PStr "delete");
                      ("friend", PStr username);
                      ("username", u)]))
         None None true "post" ∅ ;;
  j <- lift (of_ext (json r)) ;;
  ur <- lift (py_getitem j "updates_response") ;;
  lift (py_get ur "logged" PNone).

Definition block (username : string) : Meth bool :=
  u <- self_username ;;
  r <- _request "friend"
         (Some (dict [("action", PStr "block");
                      ("friend", PStr username);
                      ("username", u)]))
         None None true "post" ∅ ;;
  j <- lift (of_ext (json r)) ;;
  msg <- lift (py_get j "message" PNone) ;;
  ret (py_eq_str msg (username ++ " was blocked")).

Definition unblock (username : string) : Meth bool :=
  u <- self_username ;;
  r <- _request "friend"
         (Some (dict [("action", PStr "unblock");
                      ("friend", PStr username);
                      ("username", u)]))
         None None true "post" ∅ ;;
  j <- lift (of_ext (json r)) ;;
  msg <- lift (py_get j "message" PNone) ;;
  ret (py_eq_str msg (username ++ " was unblocked")).

Definition upload (path : string) : Meth pyval :=
  there <- ask (path_exists E path) ;;
  (if there : bool then ret tt else raise (ValueError ("No such file: " ++ path))) ;;;
  data <- call (read_file E path) ;;
  let media_type := get_media_type data in
  (if is_none media_type
   then raise (ValueError "Could not determine media type for given data")
   else ret tt) ;;;
  u <- self_username ;;
  media_id <- call (make_media_id E u) ;;
  now <- str_timestamp ;;
  u' <- self_username ;;
  g <- _get_gauth ;;
  r <- _request "/ph/upload"
         (Some (dict [("media_id", media_id);
                      ("type", media_type);
                      ("timestamp", PStr now);
                      ("username", u');
                      ("zipped", PStr "0")]))
         (Some (dict [("now", PStr now); ("gauth", g)]))
         (Some {[ "data" := data ]}) true "post" ∅ ;;
  ret (if Nat.eqb (length (content r)) 0 then media_id else PNone).

Definition send (media_id : pyval) (recipients : list string) (time : pyval)
    : Meth bool :=
  now <- str_timestamp ;;
  let recipients :=
    "[" ++ dquote ++ String.concat (dquote ++ "," ++ dquote) recipients
        ++ dquote ++ "]" in
  u <- self_username ;;
  g <- _get_gauth ;;
  r <- _request "/loq/send"
         (Some (dict [("media_id", media_id);
                      ("zipped", PStr "0");
                      ("recipients", PStr recipients);
                      ("username", u);
                      ("time", time);
                      ("timestamp", PStr now);
                      ("features_map", PStr "{}")]))
         (Some (dict [("now", PStr now); ("gauth", g)]))
         None true "post" ∅ ;;
  ret (Nat.eqb (length (content r)) 0).

Definition send_to_story (media_id time media_type is_zip : pyval) : Meth pyval :=
  now <- str_timestamp ;;
  u <- self_username ;;
  g <- _get_gauth ;;
  r <- _request "/bq/post_story"
         (Some (dict [("username", u);
                      ("media_id", media_id);
                      ("client_id", media_id);
                      ("time", time);
                      ("type", media_type);
                      ("zipped", is_zip)]))
         (Some (dict [("now", PStr now); ("gauth", g)]))
         None true "post" ∅ ;;
  lift (of_ext (json r)).

Definition clear_feed : Meth bool :=
  u <- self_username ;;
  r <- _request "clear" (Some (dict [("username", u)])) None None true "post" ∅ ;;
  ret (Nat.eqb (length (content r)) 0).

End Methods.

(** ** The request-issuing operations, as one type

    Every method that calls [_request] itself.  The remaining public methods
    ([get_conversations], [get_snaps], [get_friend_stories], [get_friends],
    [get_best_friends], [get_blocked], [mark_viewed], [mark_screenshot])
    reach the transport only through [get_updates] or [send_events]. *)
Inductive Op : Type :=
  | Op_get_device_token
  | Op_login (username password : string) (gmail gpasswd : pyval)
  | Op_logout
  | Op_get_updates (update_timestamp : pyval)
  | Op_get_story_blob (story_id story_key story_iv : pyval)
  | Op_get_blob (snap_id : pyval)
  | Op_send_events (events data : pyval)
  | Op_update_privacy (friends_only : bool)
  | Op_add_friend (username : string)
  | Op_delete_friend (username : string)
  | Op_block (username : string)
  | Op_unblock (username : string)
  | Op_upload (path : string)
  | Op_send (media_id : pyval) (recipients : list string) (time : pyval)
  | Op_send_to_story (media_id time media_type is_zip : pyval)
  | Op_clear_feed.

Definition void {W A : Type} (m : M W A) : M W unit :=
  _ <- m ;; ret tt.

Definition run_op (E : Externals) (op : Op) : M (World E) unit :=
  match op with
  | Op_get_device_token => void (_get_device_token E)
  | Op_login u p g gp => void (login E u p g gp)
  | Op_logout => void (logout E)
  | Op_get_updates t => void (get_updates E t)
  | Op_get_story_blob i k iv => void (get_story_blob E i k iv)
  | Op_get_blob i => void (get_blob E i)
  | Op_send_events ev d => void (send_events E ev d)
  | Op_update_privacy f => void (update_privacy E f)
  | Op_add_friend u => void (add_friend E u)
  | Op_delete_friend u => void (delete_friend E u)
  | Op_block u => void (block E u)
  | Op_unblock u => void (unblock E u)
  | Op_upload p => void (upload E p)
  | Op_send i r t => void (send E i r t)
  | Op_send_to_story i t m z => void (send_to_story E i t m z)
  | Op_clear_feed => void (clear_feed E)
  end.

(** The API requests among a list of events, oldest first. *)
Definition requests (evs : list Event) : list RequestArgs :=
  flat_map (fun ev => match ev with EvRequest a => [a] | _ => [] end) evs.

(** The identity-provider calls among a list of events. *)
Definition provider_calls (evs : list Event) : list (pyval * pyval) :=
  flat_map (fun ev => match ev with EvGetAuthToken g p => [(g, p)] | _ => [] end) evs.

(** ** Vocabulary of the specification *)


(** [data] begins with the bytes [p]. *)
Definition starts_with (p data : list byte) : Prop :=
  exists rest, data = (p ++ rest)%list.

(** Session states: both credentials populated, or both unset. *)
Definition Authenticated (s : Snapchat) : Prop :=
  username s <> PNone /\ auth_token s <> PNone.

Definition Unauthenticated (s : Snapchat) : Prop :=
  username s = PNone /\ auth_token s = PNone.

(** A login response is an object whose [updates_response], when there is
    one, is an object too. *)
Definition login_response (result : pyval) : Prop :=
  exists d, result = PDict d /\
    forall v, d !! "updates_response" = Some v -> exists u, v = PDict u.

(** The response's [updates_response] has a [username] entry. *)
Definition has_username (result : pyval) : Prop :=
  exists d u, result = PDict d /\ d !! "updates_response" = Some (PDict u) /\
    is_Some (u !! "username").

(** The response's [updates_response] carries the bearer token [tok]; an
    [auth_token] entry holding [None] (JSON null) carries no token. *)
Definition has_auth_token (result : pyval) (tok : pyval) : Prop :=
  exists d u, result = PDict d /\ d !! "updates_response" = Some (PDict u) /\
    u !! "auth_token" = Some tok /\ tok <> PNone.

Definition lacks_both (result : pyval) : Prop :=
  ~ has_username result /\ forall tok, ~ has_auth_token result tok.

(** [result.get('message', 'unknown error')] on an object. *)
Definition message_of (result : pyval) : pyval :=
  match result with
  | PDict d => default (PStr "unknown error") (d !! "message")
  | _ => PStr "unknown error"
  end.

(** A request carries the query parameters [now] and [gauth]. *)
Definition carries_now_and_gauth (a : RequestArgs) : Prop :=
  exists p, rq_params a = Some p /\ is_Some (p !! "now") /\ is_Some (p !! "gauth").

(** The endpoints whose requests take [gauth] together with [now]. *)
Definition signed_endpoints : list string :=
  ["/loq/login"; "/loq/all_updates"; "/bq/blob"; "/bq/update_snaps";
   "/bq/friend"; "/ph/upload"; "/loq/send"; "/bq/post_story"].

(** The endpoint each operation hands to [_request]; for [login], that of
    its second request, the first being the device-token fetch. *)
Definition endpoint_of (op : Op) : string :=
  match op with
  | Op_get_device_token => "/loq/device_id"
  | Op_login _ _ _ _ => "/loq/login"
  | Op_logout => "logout"
  | Op_get_updates _ => "/loq/all_updates"
  | Op_get_story_blob _ _ _ => "/bq/story_blob"
  | Op_get_blob _ => "/bq/blob"
  | Op_send_events _ _ => "/bq/update_snaps"
  | Op_update_privacy _ => "settings"
  | Op_add_friend _ => "/bq/friend"
  | Op_delete_friend _ | Op_block _ | Op_unblock _ => "friend"
  | Op_upload _ => "/ph/upload"
  | Op_send _ _ _ => "/loq/send"
  | Op_send_to_story _ _ _ _ => "/bq/post_story"
  | Op_clear_feed => "clear"
  end.

(** The [params] argument each operation hands to [_request]. *)
Inductive Params : Type :=
  | NowAndGauth     (* {'now': now, 'gauth': self._get_gauth()} *)
  | GauthAlone      (* {'gauth': self._get_gauth()} *)
  | NoParams.       (* left at its default, None *)

Definition params_of (op : Op) : Params :=
  match op with
  | Op_get_device_token => GauthAlone
  | Op_login _ _ _ _ | Op_get_updates _ | Op_get_blob _ | Op_send_events _ _
  | Op_add_friend _ | Op_upload _ | Op_send _ _ _ | Op_send_to_story _ _ _ _ =>
      NowAndGauth
  | Op_logout | Op_get_story_blob _ _ _ | Op_update_privacy _
  | Op_delete_friend _ | Op_block _ | Op_unblock _ | Op_clear_feed => NoParams
  end.

(** The request [a] comes with the parameters [k], the secondary token
    among them being [g]. *)
Definition params_ok (k : Params) (g : pyval) (a : RequestArgs) : Prop :=
  match k with
  | NowAndGauth =>
      exists now, rq_params a = Some (dict [("now", PStr now); ("gauth", g)])
  | GauthAlone => rq_params a = Some (dict [("gauth", g)])
  | NoParams => rq_params a = None
  end.

(** The operations that send no query parameters and nothing before their
    one request. *)
Definition is_bare (op : Op) : bool :=
  match op with
  | Op_logout | Op_update_privacy _ | Op_delete_friend _ | Op_block _
  | Op_unblock _ | Op_clear_feed => true
  | _ => false
  end.

(** The two requests of [login]: the device-token fetch, sent with the
    bearer token the object had, and the login request, sent with none and
    signed with [dsig] over the same [now] and [req_token] it carries. *)
Definition login_request_ok (s s' : Snapchat) (username password : string)
    (a : RequestArgs) : Prop :=
  (rq_endpoint a = "/loq/device_id" /\ rq_auth_token a = auth_token s /\
   exists g, rq_params a = Some (dict [("gauth", g)])) \/
  (rq_endpoint a = "/loq/login" /\ rq_auth_token a = PNone /\
   exists now key req_token d,
     rq_params a = Some (dict [("now", PStr now); ("gauth", gauth s')]) /\
     rq_data a = Some d /\
     d !! "dsig" = Some (PStr (dsig key username password now req_token)) /\
     d !! "req_token" = Some (PStr req_token)).

(** What one request of operation [op] is, [s] being the object when the
    operation starts and [s'] when it ends.  A request of [login] is one of
    its two; a request of any other operation goes to that operation's
    endpoint, with the bearer token of [s] and that operation's parameters,
    the secondary token among them being the one the object is left with. *)
Definition request_ok (op : Op) (s s' : Snapchat) (a : RequestArgs) : Prop :=
  match op with
  | Op_login username password _ _ => login_request_ok s s' username password a
  | _ =>
      rq_endpoint a = endpoint_of op /\ rq_auth_token a = auth_token s /\
      params_ok (params_of op) (gauth s') a
  end.

(** What [login] reads off a response, computed. *)
Definition updates_of (result : pyval) : option (gmap string pyval) :=
  match result with
  | PDict d =>
      match d !! "updates_response" with
      | Some (PDict u) => Some u
      | _ => None
      end
  | _ => None
  end.

Definition name_in (result : pyval) : bool :=
  match updates_of result with
  | Some u => bool_decide (is_Some (u !! "username"))
  | None => false
  end.

Definition token_in (result : pyval) : pyval :=
  match updates_of result with
  | Some u => default PNone (u !! "auth_token")
  | None => PNone
  end.

Definition session_after (username : string) (result : pyval) (s : Snapchat)
    : Snapchat :=
  with_username (if name_in result then PStr username else PNone)
    (with_auth_token (token_in result) s).

(** ** A scripted world for examples

    The clock is the world; the identity provider always answers, the
    device-token endpoint returns a fixed pair and the login endpoint
    returns [login_reply]. *)
Module Scenario.

Definition reply (j : pyval) : Response :=
  mkResponse [] (Returned j).

Definition serve (login_reply : pyval) (a : RequestArgs) (w : Z)
    : ext_result Response * Z :=
  if String.eqb (rq_endpoint a) "/loq/device_id"
  then (Returned (reply (PDict (dict [("dtoken1i", PStr "id-1");
                                     ("dtoken1v", PStr "devtok")]))), w)
  else if String.eqb (rq_endpoint a) "/loq/login"
  then (Returned (reply login_reply), w)
  else (Returned (mkResponse [] (Threw "ValueError")), w).

Definition world (login_reply : pyval) : Externals :=
  {| World := Z;
     timestamp := fun w => (Returned (PInt 1446000000000), w);
     datetime_now := fun w => (w, w);
     get_auth_token := fun _ _ w => (Returned (PStr "ya29", w + 3600), w);
     request := serve login_reply;
     STATIC_TOKEN := "static";
     make_request_token := fun a b w => (Returned "rt", w);
     get_attestation := fun _ _ _ w => (Returned (PStr "att"), w);
     get_client_auth_token :=
       fun _ _ _ w => (Returned (PDict (dict [("signature", PStr "sig")])), w);
     decrypt_story := fun c _ _ w => (Returned c, w);
     make_media_id := fun _ w => (Returned (PStr "ALICE~1"), w);
     path_exists := fun _ w => (true, w);
     read_file := fun _ w => (Returned [xff; xd8; xff; xe0], w);
     json_dumps := fun _ => "{}";
     py_repr := fun _ => "{}" |}.

(** A session restored earlier, whose secondary token expires at 100. *)
Definition alice : Snapchat :=
  mkSnapchat (PStr "alice") (PStr "bearer-0") (PStr "a@gmail.com") (PStr "pw")
             (PStr "ya28") 100.

Definition only_token : pyval :=
  PDict (dict [("updates_response", PDict (dict [("auth_token", PStr "bearer-1")]))]).

Definition only_name : pyval :=
  PDict (dict [("updates_response", PDict (dict [("username", PStr "alice")]))]).

Definition both : pyval :=
  PDict (dict [("updates_response",
                PDict (dict [("username", PStr "alice");
                             ("auth_token", PStr "bearer-1")]))]).

Definition rejected : pyval :=
  PDict (dict [("message", PStr "Invalid username or password")]).

(** Answers whose [updates_response] is not an object: a text, and null. *)
Definition text_updates : pyval :=
  PDict (dict [("updates_response", PStr "username")]).

Definition null_updates : pyval :=
  PDict (dict [("updates_response", PNone);
               ("message", PStr "Invalid username or password")]).

End Scenario.

(** ** More Python: lengths, integer subscripts, iteration *)

(** Binding in [result], for code that touches neither the object nor the
    world. *)
Definition rbind {A B : Type} (r : result A) (k : A -> result B) : result B :=
  match r with
  | Ok a => k a
  | Raise e => Raise e
  end.

Notation "x <~ r ;; k" := (rbind r (fun x => k))
  (at level 100, r at next level, right associativity, only parsing).

(** [IndexError] comes from the interpreter's sequence subscript. *)
Definition IndexError : exn := Foreign "IndexError".

Definition is_IndexError (e : exn) : bool :=
  match e with
  | Foreign what => String.eqb what "IndexError"
  | _ => false
  end.

Definition chars_of (s : string) : list pyval :=
  map (fun c => PStr (String c EmptyString)) (list_ascii_of_string s).

(** [len(v)] *)
Definition py_len (v : pyval) : result nat :=
  match v with
  | PList l => Ok (length l)
  | PStr s => Ok (String.length s)
  | PDict d => Ok (size d)
  | _ => Raise TypeError
  end.

(** [l[i]] on a sequence: a negative [i] counts from the end. *)
Definition seq_index (l : list pyval) (i : Z) : result pyval :=
  let n := Z.of_nat (length l) in
  let j := if (i <? 0)%Z then (i + n)%Z else i in
  if ((0 <=? j)%Z && (j <? n)%Z)%bool
  then match nth_error l (Z.to_nat j) with
       | Some x => Ok x
       | None => Raise IndexError
       end
  else Raise IndexError.

(** [v[i]] for an integer [i].  The keys of a decoded JSON object are all
    text, so an integer is never among them. *)
Definition py_index (v : pyval) (i : Z) : result pyval :=
  match v with
  | PList l => seq_index l i
  | PStr s => seq_index (chars_of s) i
  | PDict _ => Raise (KeyError (str_of_Z i))
  | _ => Raise TypeError
  end.

(** The items [for x in v] runs over.  Python 2 walks a dict's keys in hash
    order; here they come in the map's own order. *)
Definition py_iter (v : pyval) : result (list pyval) :=
  match v with
  | PList l => Ok l
  | PStr s => Ok (chars_of s)
  | PDict d => Ok (map (fun kv => PStr (fst kv)) (map_to_list d))
  | _ => Raise TypeError
  end.

(** [v == False] *)
Definition py_eq_False (v : pyval) : bool :=
  match v with
  | PBool b => negb b
  | PInt z => Z.eqb z 0
  | _ => false
  end.

(** A [for] loop that appends to a list: [body] says what one item adds. *)
Fixpoint collect (body : pyval -> result (list pyval)) (items : list pyval)
    : result (list pyval) :=
  match items with
  | [] => Ok []
  | x :: rest =>
      added <~ body x ;;
      more <~ collect body rest ;;
      Ok (added ++ more)%list
  end.

(** ** [_map_keys] *)

(** The ten wire names a snap is read from, with the names they get. *)
Definition snap_keys : list (string * string) :=
  [("id", "id"); ("media_id", "c_id"); ("media_type", "m"); ("time", "t");
   ("sender", "sn"); ("recipient", "rp"); ("status", "st");
   ("screenshot_count", "c"); ("sent", "sts"); ("opened", "ts")].

Definition _map_keys (snap : pyval) : result pyval :=
  v_id <~ py_get snap "id" PNone ;;
  v_media_id <~ py_get snap "c_id" PNone ;;
  v_media_type <~ py_get snap "m" PNone ;;
  v_time <~ py_get snap "t" PNone ;;
  v_sender <~ py_get snap "sn" PNone ;;
  v_recipient <~ py_get snap "rp" PNone ;;
  v_status <~ py_get snap "st" PNone ;;
  v_screenshot_count <~ py_get snap "c" PNone ;;
  v_sent <~ py_get snap "sts" PNone ;;
  v_opened <~ py_get snap "ts" PNone ;;
  Ok (PDict (dict [("id", v_id);
                   ("media_id", v_media_id);
                   ("media_type", v_media_type);
                   ("time", v_time);
                   ("sender", v_sender);
                   ("recipient", v_recipient);
                   ("status", v_status);
                   ("screenshot_count", v_screenshot_count);
                   ("sent", v_sent);
                   ("opened", v_opened)])).

(** The loop bodies of the list-building methods. *)

(** [get_snaps], lines 267 to 269. *)
Definition get_snaps_body (conversation : pyval) : result (list pyval) :=
  pending <~ py_getitem conversation "pending_received_snaps" ;;
  n <~ py_len pending ;;
  if (0 <? n)%nat
  then
    pending' <~ py_getitem conversation "pending_received_snaps" ;;
    first <~ py_index pending' 0 ;;
    snap <~ _map_keys first ;;
    Ok [snap]
  else Ok [].

(** [get_friend_stories], lines 287 to 289. *)
Definition story_body (story : pyval) : result (list pyval) :=
  obj <~ py_getitem story "story" ;;
  shared <~ py_getitem obj "is_shared" ;;
  if py_eq_False shared
  then
    name <~ py_getitem obj "username" ;;
    if negb (py_eq_str name "teamsnapchat") then Ok [obj] else Ok []
  else Ok [].

(** [get_friend_stories], lines 285 to 289. *)
Definition story_group_body (group : pyval) : result (list pyval) :=
  sender <~ py_getitem group "username" ;;
  stories <~ py_getitem group "stories" ;;
  items <~ py_iter stories ;;
  collect story_body items.

(** [get_friends], line 397. *)
Definition friend_body (friend : pyval) : result (list pyval) :=
  name <~ py_getitem friend "name" ;;
  Ok [name].

(** [get_blocked], line 469: the filter of the comprehension. *)
Definition blocked_body (f : pyval) : result (list pyval) :=
  type <~ py_getitem f "type" ;;
  if py_eq_int type FRIEND_BLOCKED then Ok [f] else Ok [].

(** The value [send] puts under [recipients], line 503. *)
Definition recipients_string (recipients : list string) : string :=
  "[" ++ dquote ++ String.concat (dquote ++ "," ++ dquote) recipients
      ++ dquote ++ "]".

(** ** The console and the file system of [bin/get_snaps.py] *)
Record Shell (W : Type) : Type := mkShell {
  print : string -> W -> W;
  path_join : string -> string -> string;
  abspath : string -> W -> string * W;
  isfile : string -> W -> bool * W;
  write_file : string -> list byte -> W -> ext_result unit * W;
  is_zipfile : string -> W -> bool * W;
  extractall : string -> string -> W -> ext_result unit * W
}.
Arguments print {W} _ _ _.
Arguments path_join {W} _ _ _.
Arguments abspath {W} _ _ _.
Arguments isfile {W} _ _ _.
Arguments write_file {W} _ _ _ _.
Arguments is_zipfile {W} _ _ _.
Arguments extractall {W} _ _ _ _.

Section MoreMethods.

Context (E : Externals) (sh : Shell (World E)).

(** The [print] statement. *)
Definition say (line : string) : Meth E unit :=
  ask (fun w => (tt, print sh line w)).

(** The [try] block of [get_conversations], lines 229 and 230. *)
Definition conversations_offset (updates : pyval) : result pyval :=
  convos <~ py_getitem updates "conversations_response" ;;
  last <~ py_index convos (-2) ;;
  py_getitem last "iter_token".

Definition get_conversations : Meth E pyval :=
  updates <- get_updates E (PInt 0) ;;
  (match conversations_offset updates with
   | Ok offset => ret tt
   | Raise e =>
       if is_IndexError e
       then say "No conversations except TeamSnapchat"
       else raise e
   end) ;;;
  lift (py_getitem updates "conversations_response").

Definition get_snaps : Meth E pyval :=
  conversations <- get_conversations ;;
  items <- lift (py_iter conversations) ;;
  snaps <- lift (collect get_snaps_body items) ;;
  ret (PList snaps).

Definition get_friend_stories (update_timestamp : pyval) : Meth E pyval :=
  result <- get_updates E (PInt 0) ;;
  sr <- lift (py_getitem result "stories_response") ;;
  story_groups <- lift (py_getitem sr "friend_stories") ;;
  items <- lift (py_iter story_groups) ;;
  stories <- lift (collect story_group_body items) ;;
  ret (PList stories).

Definition get_friends : Meth E pyval :=
  result <- get_updates E (PInt 0) ;;
  fr <- lift (py_get result "friends_response" (PList [])) ;;
  fl <- lift (py_getitem fr "friends") ;;
  items <- lift (py_iter fl) ;;
  friends <- lift (collect friend_body items) ;;
  ret (PList friends).

Definition get_best_friends : Meth E pyval :=
  result <- get_updates E (PInt 0) ;;
  lift (py_get result "bests" (PList [])).

Definition get_blocked : Meth E pyval :=
  friends <- get_friends ;;
  items <- lift (py_iter friends) ;;
  blocked <- lift (collect blocked_body items) ;;
  ret (PList blocked).

(** [process_snap] of [bin/get_snaps.py].  [get_blob] returns [r.content],
    which is never [None], so the second early return has no case here. *)
Definition process_snap (snap : pyval) (path : string) (quiet : bool)
    : Meth E unit :=
  sender <- lift (py_getitem snap "sender") ;;
  id <- lift (py_getitem snap "id") ;;
  media_type <- lift (py_getitem snap "media_type") ;;
  sender_s <- lift (py_str E sender) ;;
  id_s <- lift (py_str E id) ;;
  let filename := sender_s ++ "_" ++ id_s ++ "." ++ get_file_extension media_type in
  abs <- ask (abspath sh (path_join sh path filename)) ;;
  there <- ask (isfile sh abs) ;;
  if there : bool then ret tt
  else
    id' <- lift (py_getitem snap "id") ;;
    data <- get_blob E id' ;;
    call (write_file sh abs data) ;;;
    (if quiet then ret tt else say ("Saved: " ++ abs)) ;;;
    zipped <- ask (is_zipfile sh abs) ;;
    if zipped : bool
    then
      sender2 <- lift (py_getitem snap "sender") ;;
      id2 <- lift (py_getitem snap "id") ;;
      sender2_s <- lift (py_str E sender2) ;;
      id2_s <- lift (py_str E id2) ;;
      let unzip_dir := path_join sh path (sender2_s ++ "_" ++ id2_s) in
      call (extractall sh abs unzip_dir) ;;;
      (if quiet then ret tt
       else say ("Unzipped " ++ filename ++ " to " ++ unzip_dir))
    else ret tt.

End MoreMethods.

(** ** Vocabulary for the order of events *)

(** At most one call to the identity provider, made with the object's own
    credentials, and then at most one API request. *)
Definition provider_then_request (s : Snapchat) (evs : list Event) : Prop :=
  exists pre req,
    evs = (pre ++ req)%list /\
    (pre = [] \/ pre = [EvGetAuthToken (gmail s) (gpasswd s)]) /\
    (req = [] \/ exists a, req = [EvRequest a]).

(** The endpoints [login] reaches, in order, as far as it gets. *)
Definition login_endpoints_ok (eps : list string) : Prop :=
  eps = [] \/ eps = ["/loq/device_id"] \/ eps = ["/loq/device_id"; "/loq/login"].

(** ** A world that writes down what the clock says

    [recording E] is [E] with a list beside its world.  Every entry behaves
    as it does in [E] and leaves the list alone, except [datetime.now()],
    which also appends the instant it returns. *)
Definition aside {W L A : Type} (f : W -> A * W) : W * L -> A * (W * L) :=
  fun wl => (fst (f (fst wl)), (snd (f (fst wl)), snd wl)).

Definition noting {W : Type} (f : W -> Z * W) : W * list Z -> Z * (W * list Z) :=
  fun wl => (fst (f (fst wl)),
             (snd (f (fst wl)), (snd wl ++ [fst (f (fst wl))])%list)).

Definition recording (E : Externals) : Externals :=
  {| World := World E * list Z;
     timestamp := aside (timestamp E);
     datetime_now := noting (datetime_now E);
     get_auth_token := fun g p => aside (get_auth_token E g p);
     request := fun a => aside (request E a);
     STATIC_TOKEN := STATIC_TOKEN E;
     make_request_token := fun a b => aside (make_request_token E a b);
     get_attestation := fun a b c => aside (get_attestation E a b c);
     get_client_auth_token := fun a b c => aside (get_client_auth_token E a b c);
     decrypt_story := fun c k iv => aside (decrypt_story E c k iv);
     make_media_id := fun u => aside (make_media_id E u);
     path_exists := fun p => aside (path_exists E p);
     read_file := fun p => aside (read_file E p);
     json_dumps := json_dumps E;
     py_repr := py_repr E |}.

(** The instants [datetime.now()] returns while [op] runs on [s] in [w],
    oldest first. *)
Definition clock_readings (E : Externals) (op : Op) (s : Snapchat) (w : World E)
    : list Z :=
  snd (out_world (run_op (recording E) op s (w, []))).

(** A run beside a list does what the run without it does. *)
Definition same_run {W L A : Type} (m' : M (W * L) A) (m : M W A) : Prop :=
  forall s w l,
    out_res (m' s (w, l)) = out_res (m s w) /\
    out_self (m' s (w, l)) = out_self (m s w) /\
    fst (out_world (m' s (w, l))) = out_world (m s w) /\
    out_events (m' s (w, l)) = out_events (m s w).

(** ** A second scripted world

    The world is the console and disk log.  The clock stands at 5, the
    identity provider issues a token good until 3600, and the transport
    answers as [serve] says. *)
Module Desk.

Definition world (serve : RequestArgs -> ext_result Response) : Externals :=
  {| World := list string;
     timestamp := fun w => (Returned (PInt 1446000000000), w);
     datetime_now := fun w => (5, w);
     get_auth_token := fun _ _ w => (Returned (PStr "ya29", 3600), w);
     request := fun a w => (serve a, w);
     STATIC_TOKEN := "static";
     make_request_token := fun a b w => (Returned "rt", w);
     get_attestation := fun _ _ _ w => (Returned (PStr "att"), w);
     get_client_auth_token :=
       fun _ _ _ w => (Returned (PDict (dict [("signature", PStr "sig")])), w);
     decrypt_story := fun c _ _ w => (Returned c, w);
     make_media_id := fun _ w => (Returned (PStr "ALICE~1"), w);
     path_exists := fun p w => (String.eqb p "pic.jpg" || String.eqb p "notes.txt", w);
     read_file := fun p w =>
       (Returned (if String.eqb p "pic.jpg" then [xff; xd8; xff; xe0]
                  else [x68; x69]), w);
     json_dumps := fun _ => "{}";
     py_repr := fun _ => "{}" |}.

Definition shell (on_disk : string -> bool) (zip : bool) : Shell (list string) :=
  {| print := fun line w => app w [String.append "print " line];
     path_join := fun a b => a ++ "/" ++ b;
     abspath := fun p w => (p, w);
     isfile := fun p w => (on_disk p, w);
     write_file := fun p data w => (Returned tt, app w [String.append "write " p]);
     is_zipfile := fun p w => (zip, w);
     extractall := fun p d w =>
       (Returned tt, app w [String.append "unzip " (String.append p (String.append " to " d))]) |}.

(** Answers every request with the JSON value [j] and the body [body]. *)
Definition always (j : pyval) (body : list byte) (a : RequestArgs)
    : ext_result Response :=
  Returned (mkResponse body (Returned j)).

Definition bob : Snapchat :=
  mkSnapchat (PStr "bob") (PStr "bearer-7") (PStr "b@gmail.com") (PStr "pw")
             (PStr "ya11") 900.

End Desk.

(** ** Vocabulary for the list-building methods *)

(** The pending snaps of a conversation, when it has a list of them. *)
Definition pending_of (c : pyval) : list pyval :=
  match c with
  | PDict d =>
      match d !! "pending_received_snaps" with
      | Some (PList ps) => ps
      | _ => []
      end
  | _ => []
  end.

(** What a conversation contributes to [get_snaps]: its first pending
    snap, renamed, or nothing. *)
Definition first_snap (c : pyval) : list pyval :=
  match pending_of c with
  | x :: _ => match _map_keys x with Ok m => [m] | Raise _ => [] end
  | [] => []
  end.

(** A conversation with a list of pending snaps whose first one, if any, is
    an object. *)
Definition conversation_ok (c : pyval) : Prop :=
  exists d ps,
    c = PDict d /\ d !! "pending_received_snaps" = Some (PList ps) /\
    forall x, head ps = Some x -> exists dx, x = PDict dx.

(** A story that is not shared and not from the service's own account. *)
Definition story_kept (obj : pyval) : Prop :=
  exists v n,
    py_getitem obj "is_shared" = Ok v /\ py_eq_False v = true /\
    py_getitem obj "username" = Ok n /\ py_eq_str n "teamsnapchat" = false.

(** ** A scripted inbox

    One response of [/loq/all_updates] with two conversations, one friend
    and two story groups, served by [Desk.world]. *)
Module Inbox.

Definition carol_snap : pyval :=
  PDict (dict [("id", PStr "42r"); ("sn", PStr "carol"); ("m", PInt 0);
               ("zz", PInt 1)]).

Definition with_snap : pyval :=
  PDict (dict [("pending_received_snaps", PList [carol_snap; PInt 7]);
               ("iter_token", PStr "")]).

Definition without_snap : pyval :=
  PDict (dict [("pending_received_snaps", PList [])]).

Definition carol : pyval :=
  PDict (dict [("name", PStr "carol"); ("type", PInt 2)]).

Definition carol_story : pyval :=
  PDict (dict [("is_shared", PBool false); ("username", PStr "carol")]).

Definition shared_story : pyval :=
  PDict (dict [("is_shared", PBool true); ("username", PStr "carol")]).

Definition team_story : pyval :=
  PDict (dict [("is_shared", PBool false); ("username", PStr "teamsnapchat")]).

Definition story_groups : pyval :=
  PList [PDict (dict [("username", PStr "carol");
                      ("stories", PList [PDict (dict [("story", shared_story)]);
                                         PDict (dict [("story", carol_story)])])]);
         PDict (dict [("username", PStr "teamsnapchat");
                      ("stories", PList [PDict (dict [("story", team_story)])])])].

Definition friends_fields : gmap string pyval :=
  dict [("friends", PList [carol])].

Definition fields : gmap string pyval :=
  dict [("conversations_response", PList [with_snap; without_snap]);
        ("friends_response", PDict friends_fields);
        ("stories_response", PDict (dict [("friend_stories", story_groups)]))].

Definition server : Externals := Desk.world (Desk.always (PDict fields) []).

(** The same service when the response has nothing in it. *)
Definition bare_server : Externals := Desk.world (Desk.always (PDict ∅) []).

Definition console : Shell (list string) := Desk.shell (fun _ => false) false.

(** A disk on which every file is already there. *)
Definition full_disk : Shell (list string) := Desk.shell (fun _ => true) false.

(** [carol_snap] with the names [_map_keys] gives. *)
Definition mapped : pyval :=
  PDict (dict [("id", PStr "42r"); ("media_id", PNone); ("media_type", PInt 0);
               ("time", PNone); ("sender", PStr "carol"); ("recipient", PNone);
               ("status", PNone); ("screenshot_count", PNone); ("sent", PNone);
               ("opened", PNone)]).

End Inbox.

(** ** Vocabulary for the methods that read [get_updates]

    The object and the events are those of the one [get_updates] call, and
    so are the exception and the world when that call raises. *)
Definition reads_updates {E : Externals} {A : Type} (m : M (World E) A) : Prop :=
  forall s w,
    out_self (m s w) = out_self (get_updates E (PInt 0) s w) /\
    out_events (m s w) = out_events (get_updates E (PInt 0) s w) /\
    (forall e, out_res (get_updates E (PInt 0) s w) = Raise e ->
               out_res (m s w) = Raise e /\
               out_world (m s w) = out_world (get_updates E (PInt 0) s w)).

(** ** Postconditions of methods

    [wp m Q s w]: running [m] on object [s] in world [w] ends in an outcome,
    object, world and list of events that satisfy [Q]. *)
Definition wp {W A : Type} (m : M W A)
    (Q : result A -> Snapchat -> W -> list Event -> Prop)
    (s : Snapchat) (w : W) : Prop :=
  Q (out_res (m s w)) (out_self (m s w)) (out_world (m s w)) (out_events (m s w)).

(** * Proofs *)

(** ** Rules for [wp] *)
Section Rules.

Context {W : Type}.

Lemma wp_ret {A} (a : A) Q s (w : W) :
  Q (Ok a) s w [] -> wp (ret a) Q s w.
Proof. exact (fun H => H). Qed.

Lemma wp_raise {A} e (Q : result A -> _) s (w : W) :
  Q (Raise e) s w [] -> wp (raise e) Q s w.
Proof. exact (fun H => H). Qed.

Lemma wp_lift {A} (r : result A) Q s (w : W) :
  Q r s w [] -> wp (lift r) Q s w.
Proof. exact (fun H => H). Qed.

Lemma wp_read {A} (f : Snapchat -> A) Q s (w : W) :
  Q (Ok (f s)) s w [] -> wp (read f) Q s w.
Proof. exact (fun H => H). Qed.

Lemma wp_assign upd Q s (w : W) :
  Q (Ok tt) (upd s) w [] -> wp (assign upd) Q s w.
Proof. exact (fun H => H). Qed.

Lemma wp_emit ev Q s (w : W) :
  Q (Ok tt) s w [ev] -> wp (emit ev) Q s w.
Proof. exact (fun H => H). Qed.

Lemma wp_call {A} (f : W -> ext_result A * W) Q s w :
  (forall a w', Q (Ok a) s w' []) ->
  (forall what w', Q (Raise (Foreign what)) s w' []) ->
  wp (call f) Q s w.
Proof.
  intros Hok Hex. unfold wp, call.
  destruct (f w) as [[a | what] w']; simpl; auto.
Qed.

Lemma wp_ask {A} (f : W -> A * W) Q s w :
  (forall a w', Q (Ok a) s w' []) -> wp (ask f) Q s w.
Proof. intros H. unfold wp, ask. destruct (f w) as [a w']. apply H. Qed.

Lemma wp_bind {A B} (m : M W A) (k : A -> M W B) Q s w :
  wp m (fun r s1 w1 ev1 =>
          match r with
          | Ok a => wp (k a) (fun r' s2 w2 ev2 => Q r' s2 w2 (ev1 ++ ev2)%list) s1 w1
          | Raise e => Q (Raise e) s1 w1 ev1
          end) s w ->
  wp (bind m k) Q s w.
Proof.
  unfold wp, bind. destruct (m s w) as [[a | e] s1 w1 evs1]; simpl; auto.
  destruct (k a s1 w1) as [r s2 w2 evs2]; simpl; auto.
Qed.

Lemma wp_mono {A} (m : M W A) (Q Q' : result A -> Snapchat -> W -> list Event -> Prop) s w :
  wp m Q s w -> (forall r s' w' evs, Q r s' w' evs -> Q' r s' w' evs) -> wp m Q' s w.
Proof. unfold wp. auto. Qed.

Lemma wp_void {A} (m : M W A) Q s w :
  wp m (fun r s' w' evs =>
          Q (match r with Ok _ => Ok tt | Raise e => Raise e end) s' w' evs) s w ->
  wp (void m) Q s w.
Proof.
  intros H. unfold void. apply wp_bind. revert H. unfold wp.
  destruct (m s w) as [[a | e] s1 w1 evs1]; simpl; rewrite ?app_nil_r; auto.
Qed.

End Rules.

Lemma requests_app (l1 l2 : list Event) :
  requests (l1 ++ l2) = (requests l1 ++ requests l2)%list.
Proof. unfold requests. apply flat_map_app. Qed.

Lemma provider_calls_app (l1 l2 : list Event) :
  provider_calls (l1 ++ l2) = (provider_calls l1 ++ provider_calls l2)%list.
Proof. unfold provider_calls. apply flat_map_app. Qed.

(** ** The digest *)

(** Published vectors: the empty message, ["abc"], and a keyed one. *)
Example sha256_empty :
  SHA256.sha256_hexdigest "" =
  "e3b0c44298fc1c149afbf4c8996fb92427ae41e4649b934ca495991b7852b855".
Proof. vm_compute. reflexivity. Qed.

Example sha256_abc :
  SHA256.sha256_hexdigest "abc" =
  "ba7816bf8f01cfea414140de5dae2223b00361a396177a9cb410ff61f20015ad".
Proof. vm_compute. reflexivity. Qed.

Example hmac_sha256_fox :
  SHA256.hmac_sha256_hexdigest "key" "The quick brown fox jumps over the lazy dog" =
  "f7bc83f430538424b13298e6aa6fb143ef4d59a14946175997479dbc2d1a3cd8".
Proof. vm_compute. reflexivity. Qed.









(** ** Classification by magic bytes *)

Lemma slice_prefix_eq (a b : byte) (data : list byte) :
  bytes_eqb (slice 0 2 data) [a; b] = true <-> starts_with [a; b] data.
Proof.
  unfold bytes_eqb, slice, starts_with. rewrite bool_decide_eq_true.
  destruct data as [|x [|y rest]]; simpl.
  - split; [discriminate | intros [r Hr]; discriminate].
  - split; [discriminate | intros [r Hr]; discriminate].
  - split.
    + intros H. injection H as -> ->. exists rest. reflexivity.
    + intros [r Hr]. injection Hr as -> -> _. reflexivity.
Qed.

Lemma is_video_true (data : list byte) :
  is_video data = true <-> starts_with [x00; x00] data.
Proof.
  unfold is_video. rewrite <- slice_prefix_eq.
  destruct (bytes_eqb _ _); intuition discriminate.
Qed.

Lemma is_image_true (data : list byte) :
  is_image data = true <-> starts_with [xff; xd8] data.
Proof.
  unfold is_image. rewrite <- slice_prefix_eq.
  destruct (bytes_eqb _ _); intuition discriminate.
Qed.

Lemma is_zip_true (data : list byte) :
  is_zip data = true <-> starts_with [x50; x4b] data.
Proof.
  unfold is_zip. rewrite <- slice_prefix_eq.
  destruct (bytes_eqb _ _); intuition discriminate.
Qed.

Lemma starts_with_disjoint (p q data : list byte) :
  length p = length q -> p <> q -> starts_with p data -> ~ starts_with q data.
Proof.
  intros Hlen Hne [r1 ->] [r2 H]. apply Hne.
  apply (app_inj_1 p q r1 r2); assumption.
Qed.

Ltac prefix_clash :=
  match goal with
  | H1 : starts_with ?p ?d, H2 : starts_with ?q ?d |- _ =>
      exfalso; apply (starts_with_disjoint p q d);
      [reflexivity | discriminate | exact H1 | exact H2]
  end.

Lemma starts_with_length (p data : list byte) :
  starts_with p data -> (length p <= length data)%nat.
Proof. intros [r ->]. rewrite length_app. lia. Qed.

Lemma get_media_type_cases (data : list byte) :
  (starts_with [x00; x00] data /\ get_media_type data = PInt MEDIA_VIDEO) \/
  (starts_with [xff; xd8] data /\ get_media_type data = PInt MEDIA_IMAGE) \/
  (starts_with [x50; x4b] data /\ get_media_type data = PInt MEDIA_VIDEO) \/
  (~ starts_with [x00; x00] data /\ ~ starts_with [xff; xd8] data /\
   ~ starts_with [x50; x4b] data /\ get_media_type data = PNone).
Proof.
  unfold get_media_type.
  destruct (is_video data) eqn:Hv.
  { left. split; [apply is_video_true; exact Hv | reflexivity]. }
  destruct (is_image data) eqn:Hi.
  { right; left. split; [apply is_image_true; exact Hi | reflexivity]. }
  destruct (is_zip data) eqn:Hz.
  { right; right; left. split; [apply is_zip_true; exact Hz | reflexivity]. }
  right; right; right. repeat split.
  - rewrite <- is_video_true. congruence.
  - rewrite <- is_image_true. congruence.
  - rewrite <- is_zip_true. congruence.
Qed.



(** C2. A byte string beginning FF D8 is an image, one beginning 00 00 or
    50 4B ("PK") is a video, and every other byte string, the empty one and
    every one-byte string included, is unknown ([None]).  The function is
    total: the slice it inspects exists for every input. *)
Theorem get_media_type_classifies (data : list byte) :
  (starts_with [xff; xd8] data -> get_media_type data = PInt MEDIA_IMAGE) /\
  (starts_with [x00; x00] data -> get_media_type data = PInt MEDIA_VIDEO) /\
  (starts_with [x50; x4b] data -> get_media_type data = PInt MEDIA_VIDEO) /\
  (~ starts_with [xff; xd8] data -> ~ starts_with [x00; x00] data ->
   ~ starts_with [x50; x4b] data -> get_media_type data = PNone) /\
  ((length data < 2)%nat -> get_media_type data = PNone).
Proof.
  pose proof (get_media_type_cases data) as
    [[Hv H] | [[Hi H] | [[Hz H] | (Hv & Hi & Hz & H)]]];
    repeat split; intros; try exact H; try contradiction; try prefix_clash.
  - apply starts_with_length in Hv. simpl in Hv. lia.
  - apply starts_with_length in Hi. simpl in Hi. lia.
  - apply starts_with_length in Hz. simpl in Hz. lia.
Qed.

Lemma get_media_type_classifies_witness :
  get_media_type [xff; xd8; xff; xe0] = PInt MEDIA_IMAGE /\
  get_media_type [x50] = PNone.
Proof.
  split.
  - apply (proj1 (get_media_type_classifies [xff; xd8; xff; xe0])).
    exists [xff; xe0]. reflexivity.
  - apply (proj2 (proj2 (proj2 (proj2 (get_media_type_classifies [x50]))))).
    simpl. lia.
Defined.

(** ** File extensions *)






(** ** Stepping through a method *)

Ltac wp_prim :=
  lazymatch goal with
  | |- wp (bind _ _) _ _ _ => apply wp_bind
  | |- wp (ret _) _ _ _ => apply wp_ret
  | |- wp (raise _) _ _ _ => apply wp_raise
  | |- wp (lift ?r) _ _ _ => apply wp_lift; destruct r eqn:?
  | |- wp (read _) _ _ _ => apply wp_read
  | |- wp (assign _) _ _ _ => apply wp_assign
  | |- wp (emit _) _ _ _ => apply wp_emit
  | |- wp (call _) _ _ _ => apply wp_call; intros ? ?
  | |- wp (ask _) _ _ _ => apply wp_ask; intros ? ?
  | |- wp (if ?b then _ else _) _ _ _ => destruct b eqn:?
  | |- wp (void _) _ _ _ => apply wp_void
  end; cbv beta iota.

Section MethodRules.

Context (E : Externals).

(** [_request] hands the transport exactly one request, carrying the
    bearer token the object holds at that moment; it fails only with the
    transport's own exception. *)
Lemma wp__request endpoint data params files rfs rt mh Q s (w : World E) :
  let a := mkRequestArgs endpoint (auth_token s) data params files rfs rt mh in
  (forall r w', Q (Ok r) s w' [EvRequest a]) ->
  (forall what w', Q (Raise (Foreign what)) s w' [EvRequest a]) ->
  wp (_request E endpoint data params files rfs rt mh) Q s w.
Proof.
  intros a Hok Hex. unfold _request, self_auth_token.
  repeat wp_prim; simpl; [apply Hok | apply Hex].
Qed.

(** [_get_gauth] issues no API request, touches only [gauth] and
    [expiry], returns the [gauth] it leaves behind, and fails only with
    the provider's own exception. *)
Lemma wp__get_gauth Q s (w : World E) :
  (forall s' w' evs,
      username s' = username s -> auth_token s' = auth_token s ->
      gmail s' = gmail s -> gpasswd s' = gpasswd s ->
      requests evs = [] ->
      Q (Ok (gauth s')) s' w' evs) ->
  (forall what w' evs,
      requests evs = [] ->
      Q (Raise (Foreign what)) s w' evs) ->
  wp (_get_gauth E) Q s w.
Proof.
  intros Hok Hex.
  unfold _get_gauth, call_get_auth_token, self_expiry, self_gmail,
    self_gpasswd, self_gauth.
  repeat wp_prim; first [apply Hex; reflexivity | apply Hok; reflexivity].
Qed.

Lemma py_str_raise v e : py_str E v = Raise e -> e = UnicodeEncodeError.
Proof.
  destruct v as [| [|] | | s0 | |]; simpl; try discriminate.
  destruct (is_ascii s0); [discriminate | congruence].
Qed.

(** [str(timestamp())] changes nothing on the object and emits nothing. *)
Lemma wp_str_timestamp Q s (w : World E) :
  (forall now w', Q (Ok now) s w' []) ->
  (forall what w', Q (Raise (Foreign what)) s w' []) ->
  (forall w', Q (Raise UnicodeEncodeError) s w' []) ->
  wp (str_timestamp E) Q s w.
Proof.
  intros Hok Hex Hu. unfold str_timestamp.
  wp_prim. wp_prim.
  - wp_prim; simpl; [apply Hok |].
    match goal with H : py_str _ _ = Raise _ |- _ => apply py_str_raise in H; subst end.
    apply Hu.
  - apply Hex.
Qed.

End MethodRules.

(** ** Lazy refresh of the secondary token *)



(** ** Stepping through whole methods *)

Ltac wp_method :=
  first
  [ wp_prim
  | apply wp__get_gauth; [intros ? ? ? ? ? ? ? ? | intros ? ? ? ?]
  | apply wp__request; [intros ? ? | intros ? ?]
  | apply wp_str_timestamp; [intros ? ? | intros ? ? | intros ?] ];
  cbv beta iota.

Ltac self_simpl :=
  cbn [username auth_token gmail gpasswd gauth expiry with_username
       with_auth_token with_gmail with_gpasswd with_gauth with_expiry] in *.

Ltac requests_simpl :=
  rewrite ?requests_app;
  repeat match goal with H : requests _ = [] |- _ => rewrite H end;
  simpl.

Lemma py_getitem_raise v k e :
  py_getitem v k = Raise e -> forall m, e <> LoginError m.
Proof.
  destruct v; simpl; try (intros [= <-]; discriminate).
  destruct (d !! k); [discriminate | intros [= <-]; discriminate].
Qed.

Lemma py_in_raise v k e :
  py_in k v = Raise e -> forall m, e <> LoginError m.
Proof. destruct v; simpl; intros [= <-]; discriminate. Qed.

Lemma py_get_raise v k d e :
  py_get v k d = Raise e -> forall m, e <> LoginError m.
Proof. destruct v; simpl; intros [= <-]; discriminate. Qed.

Lemma of_ext_raise {A} (r : ext_result A) e :
  of_ext r = Raise e -> forall m, e <> LoginError m.
Proof. destruct r; simpl; [discriminate | intros [= <-]; discriminate]. Qed.

Ltac not_login_error :=
  match goal with
  | |- forall m, Foreign _ <> LoginError m => intros; discriminate
  | |- forall m, UnicodeEncodeError <> LoginError m => intros; discriminate
  | H : py_getitem _ _ = Raise ?e |- forall m, ?e <> LoginError m =>
      exact (py_getitem_raise _ _ _ H)
  | H : py_in _ _ = Raise ?e |- forall m, ?e <> LoginError m =>
      exact (py_in_raise _ _ _ H)
  | H : py_get _ _ _ = Raise ?e |- forall m, ?e <> LoginError m =>
      exact (py_get_raise _ _ _ _ H)
  | H : of_ext _ = Raise ?e |- forall m, ?e <> LoginError m =>
      exact (of_ext_raise _ _ H)
  | H : py_str _ _ = Raise ?e |- forall m, ?e <> LoginError m =>
      apply py_str_raise in H; subst; intros; discriminate
  end.

(** ** [login] *)
Section Login.

Context (E : Externals).

(** When [login_submit] yields a response the credentials are unset;
    when it raises, the exception is not [login]'s own.  Its requests are
    the device-token fetch and the signed login request. *)
Lemma login_submit_spec username password g p s (w : World E) :
  wp (login_submit E username password g p)
     (fun r s' w' evs =>
        match r with
        | Ok _ => Unauthenticated s'
        | Raise e => forall m, e <> LoginError m
        end /\
        Forall (login_request_ok s s' username password) (requests evs)) s w.
Proof.
  unfold login_submit, _get_device_token, _unset_auth, call_get_auth_token,
    Unauthenticated.
  repeat wp_method.
  all: self_simpl.
  all: split; [try not_login_error | requests_simpl].
  all: try solve [constructor].
  all: try solve [split; congruence].
  all: repeat (apply Forall_cons; split); try apply Forall_nil; try exact I.
  all: try solve [left; cbn [rq_endpoint rq_auth_token rq_params];
                  split; [reflexivity |]; split; [congruence |];
                  eexists; reflexivity].
  all: try solve [right; cbn [rq_endpoint rq_auth_token rq_params rq_data];
                  split; [reflexivity |]; split; [congruence |];
                  do 4 eexists; split; [reflexivity |];
                  split; [reflexivity |]; split; reflexivity].
Qed.

(** On a well-formed response and an object with no credentials,
    [login_finish] in closed form. *)
Lemma login_finish_run u result s (w : World E) :
  login_response result -> Unauthenticated s ->
  login_finish E u result s w =
    mkOut (if negb (name_in result) && is_none (token_in result)
           then Raise (LoginError (message_of result)) else Ok result)
          (session_after u result s) w [].
Proof.
  intros (d & -> & Hwf) [Hu Ht].
  destruct s as [su st sg sp sga se]. simpl in Hu, Ht. subst su st.
  unfold login_finish, session_after, name_in, token_in, updates_of, message_of.
  unfold bind, lift, ret, raise, assign, self_username, self_auth_token, read,
    py_in, py_getitem, py_get.
  destruct (d !! "updates_response") as [v|] eqn:Hd.
  - destruct (Hwf v eq_refl) as [m ->].
    rewrite bool_decide_eq_true_2 by eauto.
    destruct (m !! "auth_token") as [tok|] eqn:Htok;
      destruct (m !! "username") as [nm|] eqn:Hnm.
    all: rewrite ?bool_decide_eq_true_2 by eauto.
    all: rewrite ?bool_decide_eq_false_2 by (intros [? ?]; discriminate).
    all: cbn -[dict].
    all: try reflexivity.
    all: destruct tok; reflexivity.
  - rewrite bool_decide_eq_false_2 by (intros [? ?]; discriminate).
    reflexivity.
Qed.

(** On any response at all, [login_finish] emits nothing, keeps the
    secondary token, and raises [login]'s exception only with both
    credentials unset. *)
Lemma login_finish_error u result s (w : World E) :
  wp (login_finish E u result)
     (fun r s' w' evs =>
        evs = [] /\ gauth s' = gauth s /\
        forall m, r = Raise (LoginError m) -> Unauthenticated s') s w.
Proof.
  unfold login_finish, self_username, self_auth_token, Unauthenticated.
  repeat wp_method.
  all: self_simpl.
  all: split; [reflexivity |]; split; [reflexivity |].
  all: intros m0 Hm0; try discriminate.
  all: try (injection Hm0 as ->).
  all: try solve [exfalso;
                  match goal with
                  | H : _ = Raise (LoginError ?x) |- _ =>
                      first [ exact (py_in_raise _ _ _ H x eq_refl)
                            | exact (py_getitem_raise _ _ _ H x eq_refl)
                            | exact (py_get_raise _ _ _ _ H x eq_refl) ]
                  end].
  all: match goal with
       | H : is_none ?a && is_none ?b = true |- _ =>
           apply andb_prop in H; destruct H as [Ha Hb];
           destruct a; try discriminate; destruct b; try discriminate
       end; split; reflexivity.
Qed.

Lemma has_username_name_in result :
  has_username result <-> name_in result = true.
Proof.
  unfold has_username, name_in, updates_of. split.
  - intros (d & u & -> & Hd & Hu). rewrite Hd.
    apply bool_decide_eq_true_2. exact Hu.
  - destruct result as [| | | | |d]; try discriminate.
    destruct (d !! "updates_response") as [[| | | | |u]|] eqn:Hd; try discriminate.
    intros H. apply bool_decide_eq_true_1 in H. eauto.
Qed.

Lemma has_auth_token_token_in result tok :
  has_auth_token result tok <-> token_in result = tok /\ tok <> PNone.
Proof.
  unfold has_auth_token, token_in, updates_of. split.
  - intros (d & u & -> & Hd & Hu & Hne). rewrite Hd, Hu. auto.
  - destruct result as [| | | | |d]; try (intros [<- H]; congruence).
    destruct (d !! "updates_response") as [[| | | | |u]|] eqn:Hd;
      try (intros [<- H]; congruence).
    destruct (u !! "auth_token") as [t|] eqn:Hu; simpl.
    + intros [<- H]. eauto 10.
    + intros [<- H]. congruence.
Qed.

Lemma lacks_both_computed result :
  lacks_both result <-> negb (name_in result) && is_none (token_in result) = true.
Proof.
  unfold lacks_both. rewrite has_username_name_in. split.
  - intros [Hn Ht].
    destruct (name_in result); [congruence |]. simpl.
    destruct (token_in result) eqn:Htok; try reflexivity; exfalso;
      eapply Ht; apply has_auth_token_token_in; split;
      first [exact Htok | discriminate].
  - intros H. apply andb_prop in H. destruct H as [Hn Ht].
    split.
    + destruct (name_in result); [discriminate | congruence].
    + intros tok Htok. apply has_auth_token_token_in in Htok.
      destruct Htok as [<- Hne]. destruct (token_in result); try discriminate.
      congruence.
Qed.

(** A run of [login] whose request was answered with [result]. *)
Lemma login_answered u p g gp s (w : World E) result :
  out_res (login_submit E u p g gp s w) = Ok result ->
  login_response result ->
  exists s1 w1 evs1,
    Unauthenticated s1 /\
    login E u p g gp s w =
      mkOut (if negb (name_in result) && is_none (token_in result)
             then Raise (LoginError (message_of result)) else Ok result)
            (session_after u result s1) w1 (evs1 ++ []).
Proof.
  intros Hres Hwf.
  pose proof (login_submit_spec u p g gp s w) as Hspec.
  unfold wp in Hspec. unfold login, bind.
  destruct (login_submit E u p g gp s w) as [[a | e] s1 w1 evs1];
    simpl in Hres, Hspec; [| discriminate].
  injection Hres as ->. destruct Hspec as [Hun _].
  exists s1, w1, evs1. split; [exact Hun |].
  rewrite (login_finish_run u result s1 w1 Hwf Hun). reflexivity.
Qed.

End Login.

Section LoginClaims.

Context (E : Externals).

Lemma login_spec u p g gp s (w : World E) :
  wp (login E u p g gp)
     (fun r s' w' evs =>
        (forall m, r = Raise (LoginError m) -> Unauthenticated s') /\
        Forall (login_request_ok s s' u p) (requests evs)) s w.
Proof.
  unfold login. apply wp_bind.
  eapply wp_mono; [apply login_submit_spec |].
  intros [result | e] s1 w1 evs1 [Hres Hreq]; cbv beta iota.
  - eapply wp_mono; [apply login_finish_error |].
    intros r s2 w2 evs2 (-> & Hg & Hfail); cbv beta.
    split; [exact Hfail |].
    rewrite app_nil_r.
    eapply Forall_impl; [exact Hreq |].
    intros a [Hdev | (Hep & Htok & now & key & rt & d & Hp & Hrest)].
    + left. exact Hdev.
    + right. split; [exact Hep |]. split; [exact Htok |].
      exists now, key, rt, d. rewrite Hg. split; [exact Hp | exact Hrest].
  - split; [| exact Hreq].
    intros m Hm. injection Hm as ->. exfalso. exact (Hres m eq_refl).
Qed.

(** The login request is signed over the very [now] and [req_token] it
    carries. *)
Lemma login_request_signed u p g gp s (w : World E) :
  Forall (fun a =>
            rq_endpoint a = "/loq/login" ->
            exists now key req_token d pr,
              rq_data a = Some d /\ rq_params a = Some pr /\
              d !! "dsig" = Some (PStr (dsig key u p now req_token)) /\
              d !! "req_token" = Some (PStr req_token) /\
              pr !! "now" = Some (PStr now))
         (requests (out_events (login E u p g gp s w))).
Proof.
  pose proof (login_spec u p g gp s w) as [_ Hreq].
  eapply Forall_impl; [exact Hreq |].
  intros a [(Hep & _) | (_ & _ & now & key & rt & d & Hp & Hd & Hsig & Hrt)] Hlogin.
  - rewrite Hep in Hlogin. discriminate.
  - exists now, key, rt, d. eexists.
    split; [exact Hd |]. split; [exact Hp |].
    split; [exact Hsig |]. split; [exact Hrt | reflexivity].
Qed.

(** C3, as the code has it.  When the server's answer to the login
    request is an object whose [updates_response], if it has one, is an
    object too, [login] raises its exception exactly when the answer has
    neither a [username] entry nor a bearer token; the exception then
    carries the answer's [message] (or ['unknown error'] when there is
    none); when at least one of the two is there, [login] returns the
    answer and raises nothing. *)
Theorem login_raises_iff_lacks_both u p g gp s (w : World E) result :
  out_res (login_submit E u p g gp s w) = Ok result ->
  login_response result ->
  let o := login E u p g gp s w in
  (lacks_both result <-> exists m, out_res o = Raise (LoginError m)) /\
  (lacks_both result -> out_res o = Raise (LoginError (message_of result))) /\
  (forall d m, result = PDict d -> d !! "message" = Some m ->
     lacks_both result -> out_res o = Raise (LoginError m)) /\
  (~ lacks_both result -> out_res o = Ok result).
Proof.
  intros Hres Hwf o. subst o.
  destruct (login_answered E u p g gp s w result Hres Hwf)
    as (s1 & w1 & evs1 & _ & ->).
  simpl. pose proof (lacks_both_computed result) as Hl.
  destruct (negb (name_in result) && is_none (token_in result)).
  - assert (Hlacks : lacks_both result) by (apply Hl; reflexivity).
    split; [split; eauto |]. split; [reflexivity |].
    split; [| intros H; contradiction].
    intros d m -> Hm _. simpl. rewrite Hm. reflexivity.
  - assert (Hhas : ~ lacks_both result)
      by (intros H; apply Hl in H; discriminate).
    split; [split; [contradiction | intros [m Hm]; discriminate] |].
    split; [contradiction |]. split; [intros; contradiction | reflexivity].
Qed.

(** C4, as the code has it.  After a login call whose request was
    answered with an object whose [updates_response], if it has one, is an
    object too, the session is Authenticated exactly when the answer had
    both a [username] entry and a bearer token, and Unauthenticated (both
    unset) exactly when it had neither; that is exactly when [login]
    raises its exception, and otherwise it returns the answer.  Each field
    is populated from its own entry alone: [username] is set if and only
    if the answer has a [username] entry, [auth_token] is the answer's
    token if it has one and unset otherwise; so an answer with exactly one
    of the two makes [login] return with only that field populated. *)
Theorem login_session_outcome u p g gp s (w : World E) result :
  out_res (login_submit E u p g gp s w) = Ok result ->
  login_response result ->
  let o := login E u p g gp s w in
  let s' := out_self o in
  (Authenticated s' <->
     has_username result /\ exists tok, has_auth_token result tok) /\
  (Unauthenticated s' <-> lacks_both result) /\
  (Unauthenticated s' <-> exists m, out_res o = Raise (LoginError m)) /\
  (~ lacks_both result -> out_res o = Ok result) /\
  (has_username result -> username s' = PStr u) /\
  (~ has_username result -> username s' = PNone) /\
  (forall tok, has_auth_token result tok -> auth_token s' = tok) /\
  ((forall tok, ~ has_auth_token result tok) -> auth_token s' = PNone) /\
  (has_username result -> (forall tok, ~ has_auth_token result tok) ->
   out_res o = Ok result /\ username s' = PStr u /\ auth_token s' = PNone) /\
  (forall tok, ~ has_username result -> has_auth_token result tok ->
   out_res o = Ok result /\ username s' = PNone /\ auth_token s' = tok).
Proof.
  intros Hres Hwf o s'. subst s' o.
  destruct (login_answered E u p g gp s w result Hres Hwf)
    as (s1 & w1 & evs1 & _ & ->).
  cbn [out_self out_res]. unfold session_after, Authenticated, Unauthenticated.
  cbn [username auth_token with_username with_auth_token].
  pose proof (lacks_both_computed result) as Hl.
  pose proof (has_username_name_in result) as Hn.
  assert (Htok : forall tok, has_auth_token result tok <->
                             token_in result = tok /\ tok <> PNone)
    by (intros; apply has_auth_token_token_in).
  assert (Hnone : (forall tok, ~ has_auth_token result tok) ->
                  token_in result = PNone).
  { intros Hno. destruct (token_in result) eqn:Ht; try reflexivity;
      exfalso; eapply Hno; apply Htok; split;
      first [reflexivity | discriminate]. }
  destruct (name_in result); simpl in Hl |- *.
  - assert (Hname : has_username result) by (apply Hn; reflexivity).
    assert (Hnl : ~ lacks_both result) by (intros H; apply Hl in H; discriminate).
    split.
    { split.
      - intros [_ Hne]. split; [exact Hname |].
        exists (token_in result). apply Htok. auto.
      - intros [_ [tok Ht]]. apply Htok in Ht. destruct Ht as [<- Hne].
        split; [discriminate | exact Hne]. }
    split.
    { split; [intros [? _]; discriminate | intros H; contradiction]. }
    split.
    { split; [intros [? _]; discriminate | intros [m Hm]; discriminate]. }
    split; [reflexivity |].
    split; [reflexivity |]. split; [intros H; contradiction |].
    split; [intros tok Ht; apply Htok in Ht; tauto |].
    split; [exact Hnone |].
    split; [intros _ Hno; rewrite (Hnone Hno); auto |].
    intros tok H; contradiction.
  - assert (Hname : ~ has_username result)
      by (intros H; apply Hn in H; discriminate).
    split.
    { split; [intros [H _]; congruence | intros [H _]; contradiction]. }
    split.
    { split.
      - intros [_ Ht]. apply Hl. rewrite Ht. reflexivity.
      - intros H. apply Hl in H.
        destruct (token_in result); try discriminate. auto. }
    split.
    { split.
      - intros [_ Ht]. rewrite Ht. simpl. eauto.
      - intros [m Hm]. destruct (is_none (token_in result)) eqn:Hi;
          [| discriminate].
        destruct (token_in result); try discriminate. auto. }
    split.
    { intros Hnl. destruct (is_none (token_in result)); [| reflexivity].
      exfalso. apply Hnl. apply Hl. reflexivity. }
    split; [intros H; contradiction |]. split; [reflexivity |].
    split; [intros tok Ht; apply Htok in Ht; tauto |].
    split; [exact Hnone |].
    split; [intros H; contradiction |].
    intros tok _ Ht. apply Htok in Ht. destruct Ht as [Ht Hne].
    rewrite Ht. destruct tok; try congruence; auto.
Qed.

(** C9. Whenever [login] raises its own exception, [username] and
    [auth_token] are both [None] afterwards; and the login request had been
    sent without a bearer token, the credentials having been cleared
    before it was submitted. *)
Theorem login_failure_clears_credentials u p g gp s (w : World E) m :
  out_res (login E u p g gp s w) = Raise (LoginError m) ->
  let o := login E u p g gp s w in
  username (out_self o) = PNone /\ auth_token (out_self o) = PNone /\
  Forall (fun a => rq_endpoint a = "/loq/login" -> rq_auth_token a = PNone)
         (requests (out_events o)).
Proof.
  intros Hfail o. subst o.
  pose proof (login_spec u p g gp s w) as [Hun Hreq]. 
  destruct (Hun m Hfail) as [Hu Ht].
  split; [exact Hu |]. split; [exact Ht |].
  eapply Forall_impl; [exact Hreq |].
  intros a [(Hep & _) | (_ & Htok & _)] Hlogin.
  - rewrite Hep in Hlogin. discriminate.
  - exact Htok.
Qed.

End LoginClaims.

(** ** The scripted runs *)

Lemma scenario_login_response (reply : pyval) :
  (exists d, reply = PDict d /\
     (d !! "updates_response" = None \/
      exists u, d !! "updates_response" = Some (PDict u))) ->
  login_response reply.
Proof.
  intros (d & -> & [Hnone | [u Hu]]); exists d; split; try reflexivity;
    intros v Hv; rewrite Hv in *; [discriminate | injection Hu as ->; eauto].
Qed.

Lemma login_raises_iff_lacks_both_witness :
  out_res (login (Scenario.world Scenario.rejected) "alice" "secret"
             (PStr "a@gmail.com") (PStr "pw") Scenario.alice 5)
  = Raise (LoginError (PStr "Invalid username or password")).
Proof.
  pose proof (login_raises_iff_lacks_both (Scenario.world Scenario.rejected)
                "alice" "secret" (PStr "a@gmail.com") (PStr "pw")
                Scenario.alice 5 Scenario.rejected) as H.
  destruct H as (_ & Hraise & _).
  - vm_compute. reflexivity.
  - apply scenario_login_response. eexists. split; [reflexivity |].
    left. vm_compute. reflexivity.
  - rewrite Hraise; [vm_compute; reflexivity |].
    apply lacks_both_computed. vm_compute. reflexivity.
Defined.

(** C3 as stated fails for answers whose [updates_response] is not an
    object.  When it is the text ["username"], the answer has neither a
    [username] entry nor a bearer token, yet ['username' in ...] holds of
    the text, so [login] sets the username and returns.  When it is null,
    the answer again has neither, and [login] raises [TypeError] from
    ['auth_token' in None], not its own exception with the message. *)
Lemma login_odd_updates_counterexample :
  (lacks_both Scenario.text_updates /\
   out_res (login (Scenario.world Scenario.text_updates) "alice" "secret"
              (PStr "a@gmail.com") (PStr "pw") Scenario.alice 5)
   = Ok Scenario.text_updates /\
   username
     (out_self (login (Scenario.world Scenario.text_updates) "alice" "secret"
                  (PStr "a@gmail.com") (PStr "pw") Scenario.alice 5))
   = PStr "alice") /\
  (lacks_both Scenario.null_updates /\
   out_res (login (Scenario.world Scenario.null_updates) "alice" "secret"
              (PStr "a@gmail.com") (PStr "pw") Scenario.alice 5)
   = Raise TypeError).
Proof.
  split; (split; [apply lacks_both_computed; vm_compute; reflexivity |]).
  - split; vm_compute; reflexivity.
  - vm_compute. reflexivity.
Qed.

(** C4 as stated fails: the server answers with a bearer token and no
    [username]; [login] returns normally and leaves a session that is
    neither Authenticated nor Unauthenticated. *)
Lemma login_token_only_counterexample :
  let o := login (Scenario.world Scenario.only_token) "alice" "secret"
             (PStr "a@gmail.com") (PStr "pw") Scenario.alice 5 in
  out_res o = Ok Scenario.only_token /\
  username (out_self o) = PNone /\
  auth_token (out_self o) = PStr "bearer-1" /\
  ~ Authenticated (out_self o) /\
  ~ Unauthenticated (out_self o).
Proof.
  cbv zeta.
  assert (Hs : out_self (login (Scenario.world Scenario.only_token) "alice" "secret"
                           (PStr "a@gmail.com") (PStr "pw") Scenario.alice 5)
               = mkSnapchat PNone (PStr "bearer-1") (PStr "a@gmail.com") (PStr "pw")
                            (PStr "ya29") 3605)
    by (vm_compute; reflexivity).
  rewrite Hs. split; [vm_compute; reflexivity |].
  split; [reflexivity |]. split; [reflexivity |].
  split.
  - intros [Hu _]. apply Hu. reflexivity.
  - intros [_ Ht]. discriminate Ht.
Qed.

(** The other half: a [username] entry and no token. *)
Example login_name_only :
  let o := login (Scenario.world Scenario.only_name) "alice" "secret"
             (PStr "a@gmail.com") (PStr "pw") Scenario.alice 5 in
  out_res o = Ok Scenario.only_name /\
  username (out_self o) = PStr "alice" /\
  auth_token (out_self o) = PNone.
Proof. vm_compute. repeat split; reflexivity. Qed.

Lemma login_session_outcome_witness :
  Authenticated
    (out_self (login (Scenario.world Scenario.both) "alice" "secret"
                 (PStr "a@gmail.com") (PStr "pw") Scenario.alice 5)) /\
  (out_res (login (Scenario.world Scenario.only_token) "alice" "secret"
              (PStr "a@gmail.com") (PStr "pw") Scenario.alice 5)
   = Ok Scenario.only_token /\
   username
     (out_self (login (Scenario.world Scenario.only_token) "alice" "secret"
                  (PStr "a@gmail.com") (PStr "pw") Scenario.alice 5))
   = PNone /\
   auth_token
     (out_self (login (Scenario.world Scenario.only_token) "alice" "secret"
                  (PStr "a@gmail.com") (PStr "pw") Scenario.alice 5))
   = PStr "bearer-1").
Proof.
  split.
  - pose proof (login_session_outcome (Scenario.world Scenario.both)
                  "alice" "secret" (PStr "a@gmail.com") (PStr "pw")
                  Scenario.alice 5 Scenario.both) as H.
    destruct H as (Hauth & _).
    + vm_compute. reflexivity.
    + apply scenario_login_response. eexists. split; [reflexivity |].
      right. eexists. vm_compute. reflexivity.
    + apply Hauth. split.
      * apply has_username_name_in. vm_compute. reflexivity.
      * exists (PStr "bearer-1"). apply has_auth_token_token_in.
        split; [vm_compute; reflexivity | discriminate].
  - pose proof (login_session_outcome (Scenario.world Scenario.only_token)
                  "alice" "secret" (PStr "a@gmail.com") (PStr "pw")
                  Scenario.alice 5 Scenario.only_token) as H.
    destruct H as (_ & _ & _ & _ & _ & _ & _ & _ & _ & Hone).
    + vm_compute. reflexivity.
    + apply scenario_login_response. eexists. split; [reflexivity |].
      right. eexists. vm_compute. reflexivity.
    + apply (Hone (PStr "bearer-1")).
      * intros Hn. apply has_username_name_in in Hn. vm_compute in Hn.
        discriminate Hn.
      * apply has_auth_token_token_in.
        split; [vm_compute; reflexivity | discriminate].
Defined.

Lemma login_failure_clears_credentials_witness :
  let o := login (Scenario.world Scenario.rejected) "alice" "secret"
             (PStr "a@gmail.com") (PStr "pw") Scenario.alice 5 in
  username (out_self o) = PNone /\ auth_token (out_self o) = PNone /\
  Forall (fun a => rq_endpoint a = "/loq/login" -> rq_auth_token a = PNone)
         (requests (out_events o)).
Proof.
  apply (login_failure_clears_credentials (Scenario.world Scenario.rejected)
           "alice" "secret" (PStr "a@gmail.com") (PStr "pw") Scenario.alice 5
           (PStr "Invalid username or password")).
  vm_compute. reflexivity.
Defined.

(** ** What requests carry *)

Ltac refute_In :=
  match goal with
  | H : In _ _ |- _ => simpl in H; intuition discriminate
  | H : @eq string _ _ |- _ => discriminate H
  end.

Ltac solve_request_ok :=
  unfold request_ok, params_ok;
  cbn [endpoint_of params_of rq_endpoint rq_auth_token rq_params rq_data];
  split; [reflexivity |]; split; [congruence |];
  first [ reflexivity | eexists; repeat f_equal; congruence ].

Section Requests.

Context (E : Externals).

Lemma other_ops_spec (op : Op) s (w : World E) :
  (forall u p g gp, op <> Op_login u p g gp) ->
  wp (run_op E op)
     (fun r s' w' evs =>
        Forall (request_ok op s s') (requests evs) /\
        (length (requests evs) <= 1)%nat) s w.
Proof.
  intros Hop.
  destruct op; try (exfalso; eapply Hop; reflexivity);
    cbn [run_op]; apply wp_void;
    unfold _get_device_token, logout, get_updates, get_story_blob, get_blob,
      send_events, update_privacy, add_friend, delete_friend, block, unblock,
      upload, send, send_to_story, clear_feed, self_username.
  all: repeat wp_method.
  all: self_simpl; requests_simpl.
  all: (split; [| lia]).
  all: try solve [constructor].
  all: repeat (apply Forall_cons; split); try apply Forall_nil; try exact I.
  all: solve_request_ok.
Qed.

Lemma login_op_spec u p g gp s (w : World E) :
  wp (run_op E (Op_login u p g gp))
     (fun r s' w' evs =>
        Forall (request_ok (Op_login u p g gp) s s') (requests evs)) s w.
Proof.
  cbn [run_op]. apply wp_void.
  eapply wp_mono; [apply login_spec |].
  intros r s' w' evs [_ Hreq]; cbv beta. exact Hreq.
Qed.

Lemma bare_ops_single_request (op : Op) s (w : World E) :
  is_bare op = true ->
  wp (run_op E op)
     (fun r s' w' evs =>
        exists a, requests evs = [a] /\ rq_endpoint a = endpoint_of op /\
                  rq_params a = None /\ rq_auth_token a = auth_token s) s w.
Proof.
  intros Hop.
  destruct op; try discriminate Hop; cbn [run_op]; apply wp_void;
    unfold logout, update_privacy, delete_friend, block, unblock, clear_feed,
      self_username.
  all: repeat wp_method.
  all: requests_simpl; eexists; split; [reflexivity |];
    cbn [rq_endpoint rq_params rq_auth_token endpoint_of]; auto.
Qed.

(** C5, as the code has it.  Every request an operation issues carries
    the bearer token the object holds when the request is made: the token
    it had when the operation was called, and for the login request, which
    is sent after the credentials are cleared, none.  Each operation other
    than [login] sends at most one request, to its own endpoint.  The
    parameters [now] and [gauth], the latter being the secondary token the
    object is left with, are exactly the parameters of the login request
    and of the requests of [get_updates], [get_blob], [send_events],
    [add_friend], [upload], [send] and [send_to_story]; the device-token
    fetch, by itself or within [login], sends [gauth] alone; [logout],
    [update_privacy], [delete_friend], [block], [unblock] and [clear_feed]
    each send exactly one request, with no query parameters, and so does
    [get_story_blob] when it gets to send. *)
Theorem requests_carry_credentials (op : Op) s (w : World E) :
  let o := run_op E op s w in
  Forall (request_ok op s (out_self o)) (requests (out_events o)) /\
  ((forall u p g gp, op <> Op_login u p g gp) ->
   (length (requests (out_events o)) <= 1)%nat) /\
  (is_bare op = true ->
   exists a, requests (out_events o) = [a] /\
             rq_endpoint a = endpoint_of op /\
             rq_params a = None /\ rq_auth_token a = auth_token s).
Proof.
  intros o. subst o. split; [| split].
  - destruct op;
      first [ apply login_op_spec
            | apply other_ops_spec; intros; discriminate ].
  - intros Hop. exact (proj2 (other_ops_spec op s w Hop)).
  - intros Hb. exact (bare_ops_single_request op s w Hb).
Qed.

End Requests.

(** C5 as stated fails: [logout] on a session that holds both tokens sends
    one request, and that request has no query parameters at all, so
    neither [now] nor [gauth]. *)
Lemma logout_request_counterexample :
  let o := logout (Scenario.world PNone) Scenario.alice 5 in
  map rq_endpoint (requests (out_events o)) = ["logout"] /\
  map rq_auth_token (requests (out_events o)) = [PStr "bearer-0"] /\
  map rq_params (requests (out_events o)) = [None] /\
  Forall (fun a => ~ carries_now_and_gauth a) (requests (out_events o)).
Proof.
  cbv zeta.
  assert (Hp : map rq_params
                 (requests (out_events (logout (Scenario.world PNone)
                                               Scenario.alice 5))) = [None])
    by (vm_compute; reflexivity).
  split; [vm_compute; reflexivity |].
  split; [vm_compute; reflexivity |].
  split; [exact Hp |].
  destruct (requests (out_events (logout (Scenario.world PNone) Scenario.alice 5)))
    as [| a [| b l]]; try discriminate Hp.
  injection Hp as Hp. constructor; [| constructor].
  intros (p & Hsome & _). rewrite Hp in Hsome. discriminate.
Qed.

Lemma requests_carry_credentials_witness :
  (exists a, requests (out_events (run_op (Scenario.world PNone) Op_logout
                                          Scenario.alice 5)) = [a] /\
             rq_endpoint a = "logout" /\ rq_params a = None) /\
  Forall (fun a =>
            rq_endpoint a = "/bq/blob" /\ rq_auth_token a = PStr "bearer-0" /\
            exists now,
              rq_params a = Some (dict [("now", PStr now); ("gauth", PStr "ya28")]))
         (requests (out_events (run_op (Scenario.world PNone)
                                       (Op_get_blob (PStr "snap-1"))
                                       Scenario.alice 5))).
Proof.
  split.
  - destruct (proj2 (proj2 (requests_carry_credentials (Scenario.world PNone)
                              Op_logout Scenario.alice 5)) eq_refl)
      as (a & Ha & Hep & Hp & _).
    exists a. split; [exact Ha |]. split; [exact Hep | exact Hp].
  - pose proof (proj1 (requests_carry_credentials (Scenario.world PNone)
                         (Op_get_blob (PStr "snap-1")) Scenario.alice 5)) as H.
    cbv zeta in H.
    assert (Hg : gauth (out_self (run_op (Scenario.world PNone)
                                         (Op_get_blob (PStr "snap-1"))
                                         Scenario.alice 5)) = PStr "ya28")
      by (vm_compute; reflexivity).
    unfold request_ok, params_ok in H. cbn [params_of endpoint_of] in H.
    rewrite Hg in H. exact H.
Defined.

(** * More of the module *)

(** ** The secondary token, with its events *)
Section Trace.

Context (E : Externals).

(** The three ways [_get_gauth] can go. *)
Lemma wp__get_gauth_cases Q s (w : World E) :
  (forall w', Q (Ok (gauth s)) s w' []) ->
  (forall tok exp w',
      Q (Ok tok) (with_expiry exp (with_gauth tok s)) w'
        [EvGetAuthToken (gmail s) (gpasswd s)]) ->
  (forall what w',
      Q (Raise (Foreign what)) s w' [EvGetAuthToken (gmail s) (gpasswd s)]) ->
  wp (_get_gauth E) Q s w.
Proof.
  intros Hc Hr Hf.
  unfold _get_gauth, call_get_auth_token, self_expiry, self_gmail,
    self_gpasswd, self_gauth.
  repeat wp_prim; first [apply Hc | apply Hf | idtac].
  match goal with a : (pyval * Z)%type |- _ => destruct a as [tok exp] end.
  apply Hr.
Qed.

End Trace.

Ltac wp_trace :=
  first
  [ wp_prim
  | apply wp__get_gauth_cases; [intros ? | intros ? ? ? | intros ? ?]
  | apply wp__request; [intros ? ? | intros ? ?]
  | apply wp_str_timestamp; [intros ? ? | intros ? ? | intros ?] ];
  cbv beta iota.

Section Frame.

Context (E : Externals).

Lemma ops_frame (op : Op) s (w : World E) :
  (forall u p g gp, op <> Op_login u p g gp) ->
  wp (run_op E op)
     (fun r s' w' evs =>
        username s' = username s /\ gmail s' = gmail s /\ gpasswd s' = gpasswd s /\
        ((forall t, op <> Op_get_updates t) -> auth_token s' = auth_token s) /\
        (provider_calls evs = [] -> gauth s' = gauth s /\ expiry s' = expiry s) /\
        provider_then_request s evs) s w.
Proof.
  intros Hop.
  destruct op; try (exfalso; eapply Hop; reflexivity);
    cbn [run_op]; apply wp_void;
    unfold _get_device_token, logout, get_updates, get_story_blob, get_blob,
      send_events, update_privacy, add_friend, delete_friend, block, unblock,
      upload, send, send_to_story, clear_feed, self_username.
  all: repeat wp_trace.
  all: self_simpl.
  all: repeat split; try reflexivity; try (intros; simpl in *; discriminate).
  all: try (intros Hne; exfalso; eapply Hne; reflexivity).
  all: unfold provider_then_request; simpl.
  all: try solve [exists [], []; simpl; auto].
  all: try solve [eexists [], [_]; simpl; split; [reflexivity |]; split; eauto].
  all: try solve [eexists [_], []; simpl; split; [reflexivity |]; split; eauto].
  all: try solve [eexists [_], [_]; simpl; split; [reflexivity |]; split; eauto].
Qed.

(** X1. None of [_get_device_token], [logout], [get_updates],
    [get_story_blob], [get_blob], [send_events], [update_privacy],
    [add_friend], [delete_friend], [block], [unblock], [upload], [send],
    [send_to_story] and [clear_feed] touches [username], [gmail] or
    [gpasswd], and of these fifteen only [get_updates] touches the bearer
    token: in particular [logout] leaves the object holding both
    credentials. *)
Theorem operations_keep_credentials (op : Op) s (w : World E) :
  (forall u p g gp, op <> Op_login u p g gp) ->
  let s' := out_self (run_op E op s w) in
  username s' = username s /\ gmail s' = gmail s /\ gpasswd s' = gpasswd s /\
  ((forall t, op <> Op_get_updates t) -> auth_token s' = auth_token s).
Proof.
  intros Hop s'. subst s'.
  destruct (ops_frame op s w Hop) as (Hu & Hg & Hp & Ht & _).
  auto.
Qed.

(** X2. An operation other than [login] calls the identity provider at
    most once, with the object's [gmail] and [gpasswd], sends at most one
    API request, and never sends the request before the provider call. *)
Theorem operations_call_provider_first (op : Op) s (w : World E) :
  (forall u p g gp, op <> Op_login u p g gp) ->
  provider_then_request s (out_events (run_op E op s w)).
Proof.
  intros Hop. destruct (ops_frame op s w Hop) as (_ & _ & _ & _ & _ & H).
  exact H.
Qed.

End Frame.

Lemma operations_keep_credentials_witness :
  let s' := out_self (run_op (Scenario.world PNone) Op_logout Scenario.alice 5) in
  username s' = PStr "alice" /\ auth_token s' = PStr "bearer-0".
Proof.
  cbv zeta.
  destruct (operations_keep_credentials (Scenario.world PNone) Op_logout
              Scenario.alice 5) as (Hu & _ & _ & Ht).
  - intros; discriminate.
  - split; [exact Hu |]. apply Ht. intros; discriminate.
Defined.

Lemma operations_call_provider_first_witness :
  provider_then_request Scenario.alice
    (out_events (run_op (Scenario.world PNone) (Op_get_blob (PStr "snap-1"))
                        Scenario.alice 100)) /\
  provider_calls
    (out_events (run_op (Scenario.world PNone) (Op_get_blob (PStr "snap-1"))
                        Scenario.alice 100))
  = [(PStr "a@gmail.com", PStr "pw")].
Proof.
  split.
  - apply operations_call_provider_first. intros; discriminate.
  - vm_compute. reflexivity.
Defined.

Lemma void_self {W A} (m : M W A) s w :
  out_self (void m s w) = out_self (m s w).
Proof.
  unfold void, bind, ret. destruct (m s w) as [[a | e] s1 w1 evs1]; reflexivity.
Qed.

Lemma void_events {W A} (m : M W A) s w :
  out_events (void m s w) = out_events (m s w).
Proof.
  unfold void, bind, ret. destruct (m s w) as [[a | e] s1 w1 evs1]; simpl;
    rewrite ?app_nil_r; reflexivity.
Qed.

(** ** The events of [login] *)
Section LoginTrace.

Context (E : Externals).

Lemma login_submit_trace u p g gp s (w : World E) :
  wp (login_submit E u p g gp)
     (fun r s' w' evs =>
        gmail s' = g /\ gpasswd s' = gp /\
        (provider_calls evs = [] -> gauth s' = gauth s /\ expiry s' = expiry s) /\
        Forall (eq (g, gp)) (provider_calls evs) /\
        (length (provider_calls evs) <= 3)%nat /\
        login_endpoints_ok (map rq_endpoint (requests evs)) /\
        (evs = [] \/ exists rest, evs = EvGetAuthToken g gp :: rest) /\
        match r with
        | Ok _ => map rq_endpoint (requests evs) = ["/loq/device_id"; "/loq/login"]
        | Raise e => forall m, e <> LoginError m
        end) s w.
Proof.
  unfold login_submit, _get_device_token, _unset_auth, call_get_auth_token.
  repeat wp_trace.
  all: self_simpl; simpl provider_calls; simpl requests; cbn [map rq_endpoint length].
  all: unfold login_endpoints_ok.
  all: split; [reflexivity |]; split; [reflexivity |].
  all: split; [first [intros; discriminate | intros; split; reflexivity] |].
  all: split; [repeat constructor |].
  all: split; [lia |].
  all: split; [tauto |].
  all: split; [simpl; first [left; reflexivity | right; eexists; reflexivity] |].
  all: first [reflexivity | not_login_error].
Qed.

Lemma login_finish_frame u result s (w : World E) :
  wp (login_finish E u result)
     (fun r s' w' evs =>
        evs = [] /\ gmail s' = gmail s /\ gpasswd s' = gpasswd s /\
        gauth s' = gauth s /\ expiry s' = expiry s) s w.
Proof.
  unfold login_finish, self_username, self_auth_token.
  repeat wp_method.
  all: self_simpl; repeat split; reflexivity.
Qed.

Lemma guard_false_not_unauthenticated s :
  is_none (username s) && is_none (auth_token s) = false -> ~ Unauthenticated s.
Proof.
  intros H [Hu Ht]. rewrite Hu, Ht in H. discriminate.
Qed.

Lemma login_finish_returns u result s (w : World E) :
  Unauthenticated s ->
  wp (login_finish E u result)
     (fun r s' w' evs =>
        forall x, r = Ok x ->
          x = result /\
          (exists ur, py_getitem result "updates_response" = Ok ur) /\
          ~ Unauthenticated s') s w.
Proof.
  intros Hs.
  unfold login_finish, self_username, self_auth_token.
  repeat wp_method.
  all: intros x Hx; try discriminate Hx; injection Hx as <-.
  all: try match goal with
           | H : is_none _ && is_none _ = false |- _ =>
               apply guard_false_not_unauthenticated in H
           end.
  all: try contradiction.
  all: try congruence.
  all: try (split; [reflexivity |]; split; [eauto | assumption]).
Qed.

Lemma login_trace u p g gp s (w : World E) :
  wp (login E u p g gp)
     (fun r s' w' evs =>
        gmail s' = g /\ gpasswd s' = gp /\
        (provider_calls evs = [] -> gauth s' = gauth s /\ expiry s' = expiry s) /\
        Forall (eq (g, gp)) (provider_calls evs) /\
        (length (provider_calls evs) <= 3)%nat /\
        login_endpoints_ok (map rq_endpoint (requests evs)) /\
        (evs = [] \/ exists rest, evs = EvGetAuthToken g gp :: rest) /\
        match r with
        | Ok _ | Raise (LoginError _) =>
            map rq_endpoint (requests evs) = ["/loq/device_id"; "/loq/login"]
        | Raise _ => True
        end) s w.
Proof.
  unfold login. apply wp_bind.
  eapply wp_mono; [apply login_submit_trace |].
  intros [result | e] s1 w1 evs1 (Hg & Hp & Hga & Hall & Hlen & Hep & Hne & Hres);
    cbv beta iota.
  - eapply wp_mono; [apply login_finish_frame |].
    intros r s2 w2 evs2 (-> & Hg2 & Hp2 & Hga2 & Hex2); cbv beta.
    rewrite app_nil_r.
    split; [congruence |]. split; [congruence |].
    split; [intros H; destruct (Hga H); split; congruence |].
    split; [exact Hall |]. split; [exact Hlen |]. split; [exact Hep |].
    split; [exact Hne |].
    destruct r as [x | []]; try exact I; exact Hres.
  - split; [exact Hg |]. split; [exact Hp |]. split; [exact Hga |].
    split; [exact Hall |]. split; [exact Hlen |]. split; [exact Hep |].
    split; [exact Hne |].
    destruct e; try exact I. exfalso. exact (Hres arg eq_refl).
Qed.

Lemma login_returns u p g gp s (w : World E) :
  wp (login E u p g gp)
     (fun r s' w' evs =>
        forall x, r = Ok x ->
          (exists ur, py_getitem x "updates_response" = Ok ur) /\
          ~ Unauthenticated s') s w.
Proof.
  unfold login. apply wp_bind.
  eapply wp_mono; [apply login_submit_spec |].
  intros [result | e] s1 w1 evs1 [Hun _]; cbv beta iota.
  - eapply wp_mono; [apply (login_finish_returns u result s1 w1 Hun) |].
    intros r s2 w2 evs2 H x Hx; cbv beta in *.
    destruct (H x Hx) as (-> & Hur & Hna). split; assumption.
  - intros x Hx. discriminate.
Qed.

(** X3. The secondary token and its expiry change only together with a
    call to the identity provider: whatever operation runs, if the provider
    was not called, [gauth] and [expiry] are what they were. *)
Theorem secondary_token_changes_only_on_refresh (op : Op) s (w : World E) :
  let o := run_op E op s w in
  provider_calls (out_events o) = [] ->
  gauth (out_self o) = gauth s /\ expiry (out_self o) = expiry s.
Proof.
  intros o. subst o.
  destruct op.
  2:{ cbn [run_op]. rewrite void_events, void_self.
      destruct (login_trace username0 password gmail0 gpasswd0 s w)
        as (_ & _ & H & _).
      exact H. }
  all: match goal with
       | |- context [run_op E ?op] =>
           assert (Hop : forall u p g gp, op <> Op_login u p g gp)
             by (intros; discriminate);
           destruct (ops_frame E op s w Hop) as (_ & _ & _ & _ & H & _);
           exact H
       end.
Qed.

(** X4. Of the provider calls and API requests [login] makes, the first
    is always a provider call, with the [gmail] and [gpasswd] it was given,
    so no request is ever sent before the provider has been asked.  It
    calls the provider at most three times, always with those two, and
    sends at most two requests, the device-token fetch and then the login
    request.  Whenever it returns or raises its own exception both requests
    were sent. *)
Theorem login_event_order u p g gp s (w : World E) :
  let o := login E u p g gp s w in
  (out_events o = [] \/ exists rest, out_events o = EvGetAuthToken g gp :: rest) /\
  Forall (eq (g, gp)) (provider_calls (out_events o)) /\
  (length (provider_calls (out_events o)) <= 3)%nat /\
  login_endpoints_ok (map rq_endpoint (requests (out_events o))) /\
  ((exists x, out_res o = Ok x) \/ (exists m, out_res o = Raise (LoginError m)) ->
   map rq_endpoint (requests (out_events o)) = ["/loq/device_id"; "/loq/login"]).
Proof.
  intros o. subst o.
  destruct (login_trace u p g gp s w) as (_ & _ & _ & Hall & Hlen & Hep & Hne & Hres).
  split; [exact Hne |].
  split; [exact Hall |]. split; [exact Hlen |]. split; [exact Hep |].
  intros [[x Hx] | [m Hm]]; [rewrite Hx in Hres | rewrite Hm in Hres]; exact Hres.
Qed.

(** X5. Whenever [login] returns, the dict it returns has an
    [updates_response] entry, so the caller's
    [login(...)['updates_response']] cannot raise, and the session holds a
    username or a bearer token. *)
Theorem login_result_has_updates_response u p g gp s (w : World E) x :
  out_res (login E u p g gp s w) = Ok x ->
  (exists ur, py_getitem x "updates_response" = Ok ur) /\
  ~ Unauthenticated (out_self (login E u p g gp s w)).
Proof.
  intros Hx. exact (login_returns u p g gp s w x Hx).
Qed.

End LoginTrace.

Lemma secondary_token_changes_only_on_refresh_witness :
  gauth (out_self (run_op (Scenario.world PNone) (Op_get_blob (PStr "snap-1"))
                          Scenario.alice 5)) = PStr "ya28" /\
  expiry (out_self (run_op (Scenario.world PNone) (Op_get_blob (PStr "snap-1"))
                           Scenario.alice 5)) = 100.
Proof.
  apply (secondary_token_changes_only_on_refresh (Scenario.world PNone)
           (Op_get_blob (PStr "snap-1")) Scenario.alice 5).
  vm_compute. reflexivity.
Defined.

Lemma login_event_order_witness :
  map rq_endpoint
    (requests (out_events (login (Scenario.world Scenario.both) "alice" "secret"
                                 (PStr "a@gmail.com") (PStr "pw") Scenario.alice 5)))
  = ["/loq/device_id"; "/loq/login"].
Proof.
  apply (login_event_order (Scenario.world Scenario.both) "alice" "secret"
           (PStr "a@gmail.com") (PStr "pw") Scenario.alice 5).
  left. eexists. vm_compute. reflexivity.
Defined.

Lemma login_result_has_updates_response_witness :
  exists ur, py_getitem Scenario.only_token "updates_response" = Ok ur.
Proof.
  apply (login_result_has_updates_response (Scenario.world Scenario.only_token)
           "alice" "secret" (PStr "a@gmail.com") (PStr "pw") Scenario.alice 5
           Scenario.only_token).
  vm_compute. reflexivity.
Defined.

(** ** Reusing the secondary token *)

(** The recorded run is the run. *)
Section Same.
Context {W L : Type}.

Lemma same_bind {A B} (m' : M (W * L) A) (m : M W A) k' (k : A -> M W B) :
  same_run m' m -> (forall a, same_run (k' a) (k a)) ->
  same_run (bind m' k') (bind m k).
Proof.
  intros Hm Hk s w l. unfold bind.
  specialize (Hm s w l).
  destruct (m' s (w, l)) as [r' s1' [w1' l1] e1'], (m s w) as [r s1 w1 e1].
  cbn in Hm. destruct Hm as (-> & -> & -> & ->).
  destruct r as [a | e]; [| cbn; auto].
  specialize (Hk a s1 w1 l1).
  destruct (k' a s1 (w1, l1)) as [r2' s2' [w2' l2] e2'], (k a s1 w1) as [r2 s2 w2 e2].
  cbn in *. destruct Hk as (-> & -> & -> & ->). auto.
Qed.

Lemma same_ret {A} (a : A) : same_run (L:=L) (W:=W) (ret a) (ret a).
Proof. intros s w l. cbn. auto. Qed.

Lemma same_raise {A} e : same_run (L:=L) (W:=W) (A:=A) (raise e) (raise e).
Proof. intros s w l. cbn. auto. Qed.

Lemma same_lift {A} (r : result A) : same_run (L:=L) (W:=W) (lift r) (lift r).
Proof. intros s w l. cbn. auto. Qed.

Lemma same_read {A} (f : Snapchat -> A) : same_run (L:=L) (W:=W) (read f) (read f).
Proof. intros s w l. cbn. auto. Qed.

Lemma same_assign upd : same_run (L:=L) (W:=W) (assign upd) (assign upd).
Proof. intros s w l. cbn. auto. Qed.

Lemma same_emit ev : same_run (L:=L) (W:=W) (emit ev) (emit ev).
Proof. intros s w l. cbn. auto. Qed.

Lemma same_call {A} (f : W -> ext_result A * W) :
  same_run (L:=L) (call (aside f)) (call f).
Proof.
  intros s w l. unfold call, aside. cbn. destruct (f w) as [r w']. cbn. auto.
Qed.

Lemma same_ask {A} (f : W -> A * W) : same_run (L:=L) (ask (aside f)) (ask f).
Proof.
  intros s w l. unfold ask, aside. cbn. destruct (f w) as [r w']. cbn. auto.
Qed.

Lemma same_void {A} (m' : M (W * L) A) (m : M W A) :
  same_run m' m -> same_run (void m') (void m).
Proof. intros H. unfold void. apply same_bind; [exact H |]. intros a. apply same_ret. Qed.

End Same.

Lemma same_noting {W} (f : W -> Z * W) : same_run (ask (noting f)) (ask f).
Proof.
  intros s w l. unfold ask, noting. cbn. destruct (f w) as [r w']. cbn. auto.
Qed.

Ltac same_step :=
  lazymatch goal with
  | |- same_run (bind _ _) (bind _ _) => apply same_bind; [| intros ?]
  | |- same_run (ret _) _ => apply same_ret
  | |- same_run (raise _) _ => apply same_raise
  | |- same_run (lift _) _ => apply same_lift
  | |- same_run (read _) _ => apply same_read
  | |- same_run (assign _) _ => apply same_assign
  | |- same_run (emit _) _ => apply same_emit
  | |- same_run (void _) _ => apply same_void
  | |- same_run (call _) _ => apply same_call
  | |- same_run (ask (datetime_now _)) _ => apply same_noting
  | |- same_run (ask _) _ => apply same_ask
  | |- same_run (if ?b then _ else _) _ => destruct b
  end.

Section SameOps.
Context (E : Externals).

Lemma same_ops (op : Op) : same_run (run_op (recording E) op) (run_op E op).
Proof.
  destruct op; cbn [run_op];
    unfold login, login_submit, login_finish,
      _get_device_token, logout, get_updates, get_story_blob, get_blob,
      send_events, update_privacy, add_friend, delete_friend, block, unblock,
      upload, send, send_to_story, clear_feed, _request, _get_gauth, _unset_auth,
      call_get_auth_token, str_timestamp,
      self_username, self_auth_token, self_gmail, self_gpasswd, self_gauth,
      self_expiry;
    cbv zeta; repeat same_step.
Qed.
End SameOps.

(** Rules for a run in [recording E]: the list is handed on as it is, and
    grows by the instant read when the clock is asked. *)
Section RecordedRules.
Context {W : Type}.

Lemma wp_call_aside {A} (f : W -> ext_result A * W) Q s w (l : list Z) :
  (forall a w', Q (Ok a) s (w', l) []) ->
  (forall what w', Q (Raise (Foreign what)) s (w', l) []) ->
  wp (call (aside f)) Q s (w, l).
Proof.
  intros Hok Hex. unfold wp, call, aside. cbn.
  destruct (f w) as [[a | what] w']; cbn; auto.
Qed.

Lemma wp_ask_aside {A} (f : W -> A * W) Q s w (l : list Z) :
  (forall a w', Q (Ok a) s (w', l) []) -> wp (ask (aside f)) Q s (w, l).
Proof.
  intros H. unfold wp, ask, aside. cbn. destruct (f w) as [a w']. apply H.
Qed.

Lemma wp_ask_noting (f : W -> Z * W) Q s w l :
  (forall now w', Q (Ok now) s (w', (l ++ [now])%list) []) ->
  wp (ask (noting f)) Q s (w, l).
Proof.
  intros H. unfold wp, ask, noting. cbn. destruct (f w) as [a w']. apply H.
Qed.
End RecordedRules.

Ltac wp_recorded :=
  lazymatch goal with
  | |- wp (bind _ _) _ _ _ => apply wp_bind
  | |- wp (ret _) _ _ _ => apply wp_ret
  | |- wp (raise _) _ _ _ => apply wp_raise
  | |- wp (lift ?r) _ _ _ => apply wp_lift; destruct r eqn:?
  | |- wp (read _) _ _ _ => apply wp_read
  | |- wp (assign _) _ _ _ => apply wp_assign
  | |- wp (emit _) _ _ _ => apply wp_emit
  | |- wp (call _) _ _ _ => apply wp_call_aside; intros ? ?
  | |- wp (ask (datetime_now _)) _ _ _ => apply wp_ask_noting; intros ? ?
  | |- wp (ask _) _ _ _ => apply wp_ask_aside; intros ? ?
  | |- wp (if ?b then _ else _) _ _ _ => destruct b eqn:?
  | |- wp (void _) _ _ _ => apply wp_void
  end; cbv beta iota.

Ltac clock_facts :=
  repeat match goal with
         | H : (_ >=? _) = true |- _ => rewrite Z.geb_leb in H; apply Z.leb_le in H
         | H : (_ >=? _) = false |- _ => rewrite Z.geb_leb in H; apply Z.leb_gt in H
         end.

Section Recorded.
Context (E : Externals).

Lemma recorded_ops (op : Op) s (w : World E) :
  (forall u p g gp, op <> Op_login u p g gp) ->
  wp (run_op (recording E) op)
     (fun r s' wl evs =>
        (length (snd wl) <= 1)%nat /\
        (Forall (fun now => now < expiry s) (snd wl) ->
         provider_calls evs = [] /\ gauth s' = gauth s /\ expiry s' = expiry s /\
         Forall (request_ok op s s) (requests evs)) /\
        ((exists now, In now (snd wl) /\ expiry s <= now) ->
         provider_calls evs = [(gmail s, gpasswd s)])) s (w, []).
Proof.
  intros Hop.
  destruct op; try (exfalso; eapply Hop; reflexivity);
    cbn [run_op]; apply wp_void;
    unfold _get_device_token, logout, get_updates, get_story_blob, get_blob,
      send_events, update_privacy, add_friend, delete_friend, block, unblock,
      upload, send, send_to_story, clear_feed, _request, _get_gauth,
      call_get_auth_token, str_timestamp,
      self_username, self_auth_token, self_gmail, self_gpasswd, self_gauth,
      self_expiry.
  all: repeat wp_recorded.
  all: self_simpl; clock_facts; cbn [snd app length].
  all: split; [lia |].
  all: (split;
        [ intros HF;
          try (apply Forall_cons in HF; destruct HF as [HF _]; lia)
        | intros (t0 & Hin & Hge); simpl in Hin;
          first [ contradiction
                | destruct Hin as [<- | []]; first [lia | reflexivity] ] ]).
  all: simpl provider_calls; simpl requests.
  all: split; [reflexivity |]; split; [reflexivity |]; split; [reflexivity |].
  all: repeat (apply Forall_cons; split); try apply Forall_nil; try exact I.
  all: solve_request_ok.
Qed.

End Recorded.

Section ReuseClaims.

Context (E : Externals).

Lemma request_ok_tokens (op : Op) s a :
  (forall u p g gp, op <> Op_login u p g gp) ->
  request_ok op s s a ->
  rq_auth_token a = auth_token s /\
  (In (rq_endpoint a) ("/loq/device_id" :: signed_endpoints) ->
   exists pr, rq_params a = Some pr /\ pr !! "gauth" = Some (gauth s)).
Proof.
  intros Hop.
  destruct op; try (exfalso; eapply Hop; reflexivity);
    unfold request_ok, params_ok; cbn [endpoint_of params_of];
    intros (Hep & Htok & Hp); (split; [exact Htok |]); rewrite Hep; intros Hin.
  all: first [ refute_In
             | eexists; split; [exact Hp | reflexivity]
             | destruct Hp as [now Hp]; eexists; split; [exact Hp | reflexivity] ].
Qed.

(** X6. Each of [_get_device_token], [logout], [get_updates],
    [get_story_blob], [get_blob], [send_events], [update_privacy],
    [add_friend], [delete_friend], [block], [unblock], [upload], [send],
    [send_to_story] and [clear_feed] reads the clock at most once in a run;
    the instants read are those of the run in the recording world, which is
    the same run.  If what it reads is before the stored expiry (or it does
    not read the clock), it does not call the identity provider, leaves
    [gauth] and [expiry] alone, and sends its request to its own endpoint
    with the object's bearer token and, where the endpoint takes [gauth],
    the stored secondary token.  If what it reads is at or after the stored
    expiry, it calls the provider exactly once, with the object's [gmail]
    and [gpasswd]. *)
Theorem operations_reuse_token (op : Op) s (w : World E) :
  (forall u p g gp, op <> Op_login u p g gp) ->
  let o := run_op E op s w in
  let readings := clock_readings E op s w in
  same_run (run_op (recording E) op) (run_op E op) /\
  (length readings <= 1)%nat /\
  (Forall (fun now => now < expiry s) readings ->
   provider_calls (out_events o) = [] /\
   gauth (out_self o) = gauth s /\ expiry (out_self o) = expiry s /\
   Forall (request_ok op s s) (requests (out_events o))) /\
  ((exists now, In now readings /\ expiry s <= now) ->
   provider_calls (out_events o) = [(gmail s, gpasswd s)]).
Proof.
  intros Hop o readings. subst o readings. unfold clock_readings.
  split; [apply same_ops |].
  pose proof (recorded_ops E op s w Hop) as H. unfold wp in H.
  destruct (same_ops E op s w []) as (_ & Hs & _ & He).
  rewrite <- Hs, <- He. exact H.
Qed.

End ReuseClaims.

Section Restore.

Context (E : Externals).

(** X7. After a [restore_token] that obtained a secondary token, any of
    the fifteen methods of X6, if what it reads off the clock is before
    that token's expiry, sends its request with the restored bearer token
    and the obtained secondary token, without asking the provider again:
    the one provider call of the whole sequence is the one [restore_token]
    made. *)
Theorem restore_then_operation u t g p (op : Op) s (w : World E) tok exp :
  (forall u' p' g' gp', op <> Op_login u' p' g' gp') ->
  fst (get_auth_token E g p w) = Returned (tok, exp) ->
  let restored := restore_token E u t g p s w in
  Forall (fun now => now < exp)
         (clock_readings E op (out_self restored) (out_world restored)) ->
  let o := bind (restore_token E u t g p) (fun _ => run_op E op) s w in
  provider_calls (out_events o) = [(g, p)] /\
  gauth (out_self o) = tok /\ expiry (out_self o) = exp /\
  Forall (fun a =>
            rq_endpoint a = endpoint_of op /\ rq_auth_token a = t /\
            (In (rq_endpoint a) ("/loq/device_id" :: signed_endpoints) ->
             exists pr, rq_params a = Some pr /\ pr !! "gauth" = Some tok))
         (requests (out_events o)).
Proof.
  intros Hop Hprov restored.
  assert (Hrestore :
    restore_token E u t g p s w =
      mkOut (Ok tt) (mkSnapchat u t g p tok exp)
            (snd (get_auth_token E g p w)) [EvGetAuthToken g p]).
  { unfold restore_token, call_get_auth_token, bind, assign, emit, call.
    destruct (get_auth_token E g p w) as [r w1]. simpl in Hprov. subst r.
    reflexivity. }
  subst restored. rewrite Hrestore. cbn [out_self out_world]. cbv zeta.
  intros Hclock.
  unfold bind. rewrite Hrestore.
  assert (H : let o1 := run_op E op (mkSnapchat u t g p tok exp)
                               (snd (get_auth_token E g p w)) in
              provider_calls (out_events o1) = [] /\
              gauth (out_self o1) = tok /\ expiry (out_self o1) = exp /\
              Forall (request_ok op (mkSnapchat u t g p tok exp)
                                 (mkSnapchat u t g p tok exp))
                     (requests (out_events o1))).
  { cbv zeta.
    pose proof (recorded_ops E op (mkSnapchat u t g p tok exp)
                  (snd (get_auth_token E g p w)) Hop) as H.
    unfold wp in H. destruct H as (_ & H & _).
    specialize (H Hclock).
    destruct (same_ops E op (mkSnapchat u t g p tok exp)
                (snd (get_auth_token E g p w)) []) as (_ & Hs & _ & Hev).
    rewrite <- Hs, <- Hev. exact H. }
  cbv zeta in H.
  destruct (run_op E op (mkSnapchat u t g p tok exp) (snd (get_auth_token E g p w)))
    as [r s2 w2 evs2].
  cbn [out_res out_self out_world out_events] in *.
  cbn [gauth expiry auth_token] in H.
  destruct H as (Hpc & Hg & He & Hreq).
  change ([EvGetAuthToken g p] ++ evs2)%list with (EvGetAuthToken g p :: evs2).
  simpl. rewrite Hpc.
  split; [reflexivity |]. split; [exact Hg |]. split; [exact He |].
  eapply Forall_impl; [exact Hreq |].
  intros a Ha. pose proof (request_ok_tokens op _ a Hop Ha) as [Htok Hgauth].
  split; [| split; [exact Htok | exact Hgauth]].
  destruct op; try (exfalso; eapply Hop; reflexivity); exact (proj1 Ha).
Qed.

End Restore.

Lemma operations_reuse_token_witness :
  (provider_calls
     (out_events (run_op (Scenario.world PNone) (Op_get_blob (PStr "snap-1"))
                         Scenario.alice 5)) = [] /\
   gauth (out_self (run_op (Scenario.world PNone) (Op_get_blob (PStr "snap-1"))
                           Scenario.alice 5)) = PStr "ya28") /\
  provider_calls
    (out_events (run_op (Scenario.world PNone) (Op_get_blob (PStr "snap-1"))
                        Scenario.alice 100))
  = [(PStr "a@gmail.com", PStr "pw")].
Proof.
  split.
  - pose proof (operations_reuse_token (Scenario.world PNone)
                  (Op_get_blob (PStr "snap-1")) Scenario.alice 5) as H.
    cbv zeta in H. destruct H as (_ & _ & H & _); [intros; discriminate |].
    destruct H as (Hp & Hg & _).
    + vm_compute. repeat constructor.
    + split; [exact Hp | exact Hg].
  - pose proof (operations_reuse_token (Scenario.world PNone)
                  (Op_get_blob (PStr "snap-1")) Scenario.alice 100) as H.
    cbv zeta in H. destruct H as (_ & _ & _ & H); [intros; discriminate |].
    apply H. exists 100. split; [vm_compute; auto | vm_compute; discriminate].
Defined.

Lemma restore_then_operation_witness :
  provider_calls
    (out_events (bind (restore_token (Scenario.world PNone)
                         (PStr "bob") (PStr "bearer-7") (PStr "b@gmail.com") (PStr "pw"))
                      (fun _ => run_op (Scenario.world PNone)
                                       (Op_get_blob (PStr "snap-1")))
                      __init__ 5))
  = [(PStr "b@gmail.com", PStr "pw")].
Proof.
  apply (restore_then_operation (Scenario.world PNone)
           (PStr "bob") (PStr "bearer-7") (PStr "b@gmail.com") (PStr "pw")
           (Op_get_blob (PStr "snap-1")) __init__ 5 (PStr "ya29") 3605).
  - intros; discriminate.
  - reflexivity.
  - vm_compute. repeat constructor.
Defined.

(** ** [get_updates] and [upload] *)
Section UpdatesAndUpload.

Context (E : Externals).

Lemma get_updates_bearer t s (w : World E) :
  wp (get_updates E t)
     (fun r s' w' evs =>
        forall result, r = Ok result ->
          auth_token s' =
            match result with
            | PDict d => default (auth_token s) (d !! "auth_token")
            | _ => auth_token s
            end) s w.
Proof.
  unfold get_updates, self_username.
  repeat wp_trace.
  all: self_simpl.
  all: intros result Hr; try discriminate Hr; injection Hr as <-.
  all: match goal with
       | H : py_in "auth_token" ?x = Ok _ |- _ =>
           destruct x; simpl in *; try discriminate
       end.
  all: try reflexivity.
  all: destruct (d !! "auth_token") eqn:Hd; simpl in *; try congruence.
  all: injection Heqr1 as Hb; apply bool_decide_eq_false_1 in Hb;
       exfalso; apply Hb; eauto.
Qed.

(** X8. When [get_updates] returns, the bearer token is the response's
    top-level [auth_token] if the response has that entry, whatever it
    holds (a null there leaves the object without a token), and the old
    token otherwise. *)
Theorem get_updates_replaces_bearer t s (w : World E) result :
  out_res (get_updates E t s w) = Ok result ->
  auth_token (out_self (get_updates E t s w)) =
    match result with
    | PDict d => default (auth_token s) (d !! "auth_token")
    | _ => auth_token s
    end.
Proof.
  intros Hr. exact (get_updates_bearer t s w result Hr).
Qed.

Lemma upload_trace path s (w : World E) :
  wp (upload E path)
     (fun r s' w' evs =>
        (forall m, r = Raise (ValueError m) -> evs = [] /\ s' = s) /\
        Forall (fun a =>
                  rq_endpoint a = "/ph/upload" /\
                  exists bytes d,
                    rq_files a = Some {[ "data" := bytes ]} /\
                    rq_data a = Some d /\
                    d !! "type" = Some (get_media_type bytes) /\
                    get_media_type bytes <> PNone /\
                    d !! "zipped" = Some (PStr "0"))
               (requests evs) /\
        (forall v, r = Ok v -> exists a, requests evs = [a])) s w.
Proof.
  unfold upload, self_username.
  repeat wp_trace.
  all: self_simpl; simpl requests.
  all: split; [intros m Hm; first [discriminate Hm | split; reflexivity] |].
  all: split; [| intros v Hv; first [discriminate Hv | eexists; reflexivity]].
  all: repeat (apply Forall_cons; split); try apply Forall_nil; try exact I.
  all: cbn [rq_endpoint rq_files rq_data]; split; [reflexivity |].
  all: do 2 eexists; split; [reflexivity |]; split; [reflexivity |];
       split; [reflexivity |]; split; [| reflexivity].
  all: match goal with
       | H : is_none (get_media_type ?x) = false |- _ =>
           destruct (get_media_type x); simpl in H; congruence
       end.
Qed.

(** X9. [upload] raises [ValueError] only before anything is sent: for a
    path that does not exist, without reading any file, and for a file
    whose first two bytes are none of the known prefixes.  Either way no
    request has been made and the object is unchanged. *)
Theorem upload_rejects_before_sending path s (w : World E) :
  let o := upload E path s w in
  (fst (path_exists E path w) = false ->
   o = mkOut (Raise (ValueError ("No such file: " ++ path))) s
             (snd (path_exists E path w)) []) /\
  (forall data,
     fst (path_exists E path w) = true ->
     fst (read_file E path (snd (path_exists E path w))) = Returned data ->
     get_media_type data = PNone ->
     out_res o = Raise (ValueError "Could not determine media type for given data")) /\
  (forall m, out_res o = Raise (ValueError m) ->
     out_events o = [] /\ out_self o = s).
Proof.
  intros o. subst o. split; [| split].
  - intros Hno. unfold upload, bind, ask, raise.
    destruct (path_exists E path w) as [b w1]. simpl in Hno. subst b. reflexivity.
  - intros data Hyes Hread Hnone. unfold upload, bind, ask, call, raise, ret.
    destruct (path_exists E path w) as [b w1]. simpl in Hyes, Hread. subst b.
    destruct (read_file E path w1) as [r w2]. simpl in Hread. subst r.
    simpl. rewrite Hnone. reflexivity.
  - intros m Hm. destruct (upload_trace path s w) as (H & _). exact (H m Hm).
Qed.

(** X10. The one request [upload] makes declares as [type] the kind the
    classifier found in the very bytes it attaches, always image or video
    and never [None]; a zip archive therefore goes out as a video, marked
    [zipped] "0".  If [upload] returns, it made exactly that request. *)
Theorem upload_declares_sniffed_type path s (w : World E) :
  let o := upload E path s w in
  Forall (fun a =>
            rq_endpoint a = "/ph/upload" /\
            exists bytes d,
              rq_files a = Some {[ "data" := bytes ]} /\
              rq_data a = Some d /\
              d !! "type" = Some (get_media_type bytes) /\
              get_media_type bytes <> PNone /\
              d !! "zipped" = Some (PStr "0"))
         (requests (out_events o)) /\
  (forall v, out_res o = Ok v -> exists a, requests (out_events o) = [a]).
Proof.
  intros o. subst o. destruct (upload_trace path s w) as (_ & Hreq & Hone).
  split; assumption.
Qed.

End UpdatesAndUpload.

Lemma get_updates_replaces_bearer_witness :
  auth_token
    (out_self (get_updates
                 (Desk.world (Desk.always (PDict (dict [("auth_token", PStr "bearer-8")])) []))
                 (PInt 0) Desk.bob []))
  = PStr "bearer-8".
Proof.
  rewrite (get_updates_replaces_bearer
             (Desk.world (Desk.always (PDict (dict [("auth_token", PStr "bearer-8")])) []))
             (PInt 0) Desk.bob [] (PDict (dict [("auth_token", PStr "bearer-8")]))).
  - vm_compute. reflexivity.
  - vm_compute. reflexivity.
Defined.

Lemma upload_rejects_before_sending_witness :
  out_res (upload (Desk.world (Desk.always PNone [])) "missing.jpg" Desk.bob [])
  = Raise (ValueError "No such file: missing.jpg") /\
  out_res (upload (Desk.world (Desk.always PNone [])) "notes.txt" Desk.bob [])
  = Raise (ValueError "Could not determine media type for given data").
Proof.
  split.
  - rewrite (proj1 (upload_rejects_before_sending (Desk.world (Desk.always PNone []))
                      "missing.jpg" Desk.bob [])); reflexivity.
  - apply (proj1 (proj2 (upload_rejects_before_sending
                           (Desk.world (Desk.always PNone [])) "notes.txt" Desk.bob []))
             [x68; x69]); reflexivity.
Defined.

Lemma upload_declares_sniffed_type_witness :
  exists a,
    requests (out_events (upload (Desk.world (Desk.always PNone [])) "pic.jpg"
                                 Desk.bob [])) = [a].
Proof.
  apply (proj2 (upload_declares_sniffed_type (Desk.world (Desk.always PNone []))
                  "pic.jpg" Desk.bob []) (PStr "ALICE~1")).
  vm_compute. reflexivity.
Defined.

(** ** [send], [_map_keys] and the magic prefixes *)

Lemma send_by_string (E : Externals) media_id l l' time :
  recipients_string l = recipients_string l' ->
  send E media_id l time = send E media_id l' time.
Proof.
  intros H. unfold send.
  change ("[" ++ dquote ++ String.concat (dquote ++ "," ++ dquote) l ++ dquote ++ "]")
    with (recipients_string l).
  change ("[" ++ dquote ++ String.concat (dquote ++ "," ++ dquote) l' ++ dquote ++ "]")
    with (recipients_string l').
  rewrite H. reflexivity.
Qed.

(** X11. [send] writes the recipients as a JSON-looking list without
    escaping anything: every request it makes carries that string, an empty
    recipient list is the same call as a list holding one empty name, and
    one name containing [","] between quotes is the same call as the two
    names on either side of it. *)
Theorem send_does_not_escape (E : Externals) media_id time :
  (forall l s (w : World E),
     Forall (fun a => exists d, rq_data a = Some d /\
                                d !! "recipients" = Some (PStr (recipients_string l)))
            (requests (out_events (send E media_id l time s w)))) /\
  send E media_id [] time = send E media_id [""] time /\
  (forall a b,
     send E media_id [a ++ dquote ++ "," ++ dquote ++ b] time =
     send E media_id [a; b] time).
Proof.
  split; [| split].
  - intros l s w.
    change (wp (send E media_id l time)
              (fun _ _ _ evs =>
                 Forall (fun a => exists d, rq_data a = Some d /\
                                            d !! "recipients" =
                                              Some (PStr (recipients_string l)))
                        (requests evs)) s w).
    unfold send, self_username.
    repeat wp_trace.
    all: simpl requests.
    all: repeat (apply Forall_cons; split); try apply Forall_nil; try exact I.
    all: eexists; split; reflexivity.
  - apply send_by_string. reflexivity.
  - intros a b. apply send_by_string. reflexivity.
Qed.

(** X12. On an object [_map_keys] never raises and returns an object with
    exactly the ten renamed keys, each holding the value of its wire name or
    [None] when the wire name is missing; every other entry of the input is
    dropped.  On anything that is not an object it raises
    [AttributeError]. *)
Theorem map_keys_shape (snap : pyval) :
  (forall d, snap = PDict d ->
     exists m,
       _map_keys snap = Ok (PDict m) /\
       dom m = list_to_set (map fst snap_keys) /\
       Forall (fun kv => m !! fst kv = Some (default PNone (d !! snd kv))) snap_keys) /\
  ((forall d, snap <> PDict d) -> _map_keys snap = Raise AttributeError).
Proof.
  split.
  - intros d ->. eexists. split; [reflexivity |]. split.
    + unfold dict. simpl rev. unfold snap_keys. simpl map.
      rewrite !dom_list_to_map_L. simpl. reflexivity.
    + unfold snap_keys. repeat constructor.
  - intros Hno. destruct snap; try reflexivity. exfalso. eapply Hno. reflexivity.
Qed.

Lemma map_keys_shape_witness :
  exists m,
    _map_keys (PDict (dict [("sn", PStr "carol"); ("zz", PInt 1)])) = Ok (PDict m) /\
    m !! "sender" = Some (PStr "carol") /\ m !! "media_type" = Some PNone /\
    m !! "zz" = None.
Proof.
  destruct (proj1 (map_keys_shape (PDict (dict [("sn", PStr "carol"); ("zz", PInt 1)])))
              _ eq_refl) as (m & Hm & Hdom & Hall).
  exists m. split; [exact Hm |].
  injection Hm as <-. vm_compute. repeat split; reflexivity.
Defined.

(** X13. At most one of the three magic-byte tests holds for any byte
    string, so the order in which [get_media_type] tries them does not
    matter; the result is [None] exactly when all three fail, and that is
    exactly when the file gets no extension. *)
Theorem magic_tests_exclusive (data : list byte) :
  is_video data && is_image data = false /\
  is_video data && is_zip data = false /\
  is_image data && is_zip data = false /\
  (get_media_type data = PNone <->
     is_video data = false /\ is_image data = false /\ is_zip data = false) /\
  (get_file_extension (get_media_type data) = "" <-> get_media_type data = PNone).
Proof.
  assert (Hvi : is_video data = true -> is_image data = true -> False).
  { rewrite is_video_true, is_image_true. intros; prefix_clash. }
  assert (Hvz : is_video data = true -> is_zip data = true -> False).
  { rewrite is_video_true, is_zip_true. intros; prefix_clash. }
  assert (Hiz : is_image data = true -> is_zip data = true -> False).
  { rewrite is_image_true, is_zip_true. intros; prefix_clash. }
  unfold get_media_type.
  destruct (is_video data), (is_image data), (is_zip data); simpl;
    try (exfalso; auto; fail);
    repeat split; intros; try discriminate; try reflexivity;
    try (match goal with H : _ /\ _ |- _ => destruct H as (? & ? & ?) end; discriminate).
Qed.

(** ** The list-building methods *)



Lemma collect_Forall body (P : pyval -> Prop) items out :
  (forall x added, body x = Ok added -> Forall P added) ->
  collect body items = Ok out -> Forall P out.
Proof.
  intros Hbody. revert out.
  induction items as [| x rest IH]; intros out H; simpl in H.
  - injection H as <-. constructor.
  - unfold rbind in H.
    destruct (body x) as [added |] eqn:Hx; [| discriminate].
    destruct (collect body rest) as [more |] eqn:Hr; [| discriminate].
    injection H as <-. apply Forall_app. split; eauto.
Qed.

Lemma get_snaps_body_ok c :
  conversation_ok c -> get_snaps_body c = Ok (first_snap c).
Proof.
  intros (d & ps & -> & Hp & Hhead).
  unfold get_snaps_body, first_snap, pending_of, rbind. cbn [py_getitem].
  rewrite Hp. cbn [py_len].
  destruct ps as [| x ps']; [reflexivity |].
  destruct (Hhead x eq_refl) as [dx ->].
  reflexivity.
Qed.

Lemma collect_get_snaps cs :
  Forall conversation_ok cs ->
  collect get_snaps_body cs = Ok (flat_map first_snap cs).
Proof.
  induction 1 as [| c cs Hc _ IH]; [reflexivity |].
  simpl. rewrite (get_snaps_body_ok c Hc), IH. reflexivity.
Qed.

Lemma first_snap_length c : (length (first_snap c) <= 1)%nat.
Proof.
  unfold first_snap. destruct (pending_of c) as [| x ?]; [simpl; lia |].
  destruct (_map_keys x); simpl; lia.
Qed.

Lemma flat_map_first_snap_length cs :
  (length (flat_map first_snap cs) <= length cs)%nat.
Proof.
  induction cs as [| c cs IH]; simpl; [lia |].
  rewrite length_app. pose proof (first_snap_length c). lia.
Qed.

Lemma story_body_kept story added :
  story_body story = Ok added -> Forall story_kept added.
Proof.
  unfold story_body, rbind. intros H.
  destruct (py_getitem story "story") as [obj |] eqn:Ho; [| discriminate].
  destruct (py_getitem obj "is_shared") as [v |] eqn:Hv; [| discriminate].
  destruct (py_eq_False v) eqn:Hf.
  - destruct (py_getitem obj "username") as [n |] eqn:Hn; [| discriminate].
    destruct (py_eq_str n "teamsnapchat") eqn:Ht; simpl in H; injection H as <-.
    + constructor.
    + constructor; [| constructor]. exists v, n. auto.
  - injection H as <-. constructor.
Qed.

Lemma story_group_body_kept group added :
  story_group_body group = Ok added -> Forall story_kept added.
Proof.
  unfold story_group_body, rbind. intros H.
  destruct (py_getitem group "username"); [| discriminate].
  destruct (py_getitem group "stories") as [st |]; [| discriminate].
  destruct (py_iter st) as [items |]; [| discriminate].
  eapply collect_Forall; [| exact H]. apply story_body_kept.
Qed.

Lemma wp_any {W A} (m : M W A) s (w : W) : wp m (fun _ _ _ _ => True) s w.
Proof. exact I. Qed.

Section Lists.

Context (E : Externals) (sh : Shell (World E)).


(** X15. [get_snaps] returns at most one snap per conversation: for each
    conversation with a non-empty list of pending snaps its first one,
    renamed by [_map_keys], in the order of the conversations; the pending
    snaps after the first are never looked at. *)
Theorem get_snaps_first_pending s (w : World E) cs :
  out_res (get_conversations E sh s w) = Ok (PList cs) ->
  Forall conversation_ok cs ->
  out_res (get_snaps E sh s w) = Ok (PList (flat_map first_snap cs)) /\
  (length (flat_map first_snap cs) <= length cs)%nat.
Proof.
  intros Hc Hok. split; [| apply flat_map_first_snap_length].
  unfold get_snaps, bind.
  destruct (get_conversations E sh s w) as [r s1 w1 evs1].
  cbn [out_res] in Hc. subst r.
  unfold lift, ret. cbn [py_iter]. rewrite (collect_get_snaps cs Hok). reflexivity.
Qed.

(** X16. [get_friends] on a response without [friends_response] raises
    [TypeError], because the default it falls back on is a list and is
    then subscripted with ['friends']; on a response with a list of friend
    objects it returns their [name]s in order. *)
Theorem get_friends_cases s (w : World E) d :
  out_res (get_updates E (PInt 0) s w) = Ok (PDict d) ->
  (d !! "friends_response" = None -> out_res (get_friends E s w) = Raise TypeError) /\
  (forall f fl names,
     d !! "friends_response" = Some (PDict f) ->
     f !! "friends" = Some (PList fl) ->
     Forall2 (fun fr n => exists fd, fr = PDict fd /\ fd !! "name" = Some n) fl names ->
     out_res (get_friends E s w) = Ok (PList names)).
Proof.
  intros Hu. unfold get_friends, bind.
  destruct (get_updates E (PInt 0) s w) as [r s1 w1 evs1].
  cbn [out_res] in Hu. subst r. unfold lift, ret. cbn [py_get].
  split.
  - intros ->. reflexivity.
  - intros f fl names -> Hf Hall. cbn. rewrite Hf. cbn.
    assert (Hc : collect friend_body fl = Ok names).
    { clear Hf. induction Hall as [| fr n fl' names' (fd & -> & Hn) _ IH]; [reflexivity |].
      cbn [collect]. unfold friend_body at 1. unfold rbind at 1 2. cbn [py_getitem].
      rewrite Hn. cbn. rewrite IH. reflexivity. }
    rewrite Hc. reflexivity.
Qed.

(** X17. [get_blocked] subscripts each element of what [get_friends]
    returns with ['type'], but those elements are the friends' names: as
    soon as the first name is text it raises [TypeError]. *)
Theorem get_blocked_text_names s (w : World E) n rest :
  out_res (get_friends E s w) = Ok (PList (PStr n :: rest)) ->
  out_res (get_blocked E s w) = Raise TypeError.
Proof.
  intros Hf. unfold get_blocked, bind.
  destruct (get_friends E s w) as [r s1 w1 evs1].
  cbn [out_res] in Hf. subst r. reflexivity.
Qed.

(** X18. Whatever the server sends, every story [get_friend_stories]
    returns has [is_shared] equal to [False] and a [username] other than
    ['teamsnapchat']. *)
Theorem get_friend_stories_filter t s (w : World E) stories :
  out_res (get_friend_stories E t s w) = Ok (PList stories) ->
  Forall story_kept stories.
Proof.
  revert stories.
  change (wp (get_friend_stories E t)
            (fun r _ _ _ => forall stories, r = Ok (PList stories) ->
                                            Forall story_kept stories) s w).
  unfold get_friend_stories. apply wp_bind.
  eapply wp_mono; [apply wp_any |].
  intros [result | e] s1 w1 evs1 _; cbv beta iota; [| intros; discriminate].
  repeat wp_prim.
  all: intros stories Hs; try discriminate Hs; injection Hs as <-.
  eapply collect_Forall; [apply story_group_body_kept | eassumption].
Qed.

End Lists.


Lemma get_snaps_first_pending_witness :
  out_res (get_snaps Inbox.server Inbox.console Desk.bob [])
  = Ok (PList (flat_map first_snap [Inbox.with_snap; Inbox.without_snap])) /\
  (length (flat_map first_snap [Inbox.with_snap; Inbox.without_snap]) <= 2)%nat.
Proof.
  apply (get_snaps_first_pending Inbox.server Inbox.console Desk.bob []
           [Inbox.with_snap; Inbox.without_snap]).
  - vm_compute. reflexivity.
  - constructor; [| constructor; [| constructor]].
    + eexists _, _. split; [reflexivity |]. split; [vm_compute; reflexivity |].
      intros x [= <-]. eexists. reflexivity.
    + eexists _, _. split; [reflexivity |]. split; [vm_compute; reflexivity |].
      intros x [=].
Defined.

Lemma get_friends_cases_witness :
  out_res (get_friends Inbox.bare_server Desk.bob []) = Raise TypeError /\
  out_res (get_friends Inbox.server Desk.bob []) = Ok (PList [PStr "carol"]).
Proof.
  split.
  - apply (proj1 (get_friends_cases Inbox.bare_server Desk.bob [] ∅ eq_refl)).
    reflexivity.
  - apply (proj2 (get_friends_cases Inbox.server Desk.bob [] Inbox.fields
                    ltac:(vm_compute; reflexivity))
             Inbox.friends_fields [Inbox.carol] [PStr "carol"]).
    + vm_compute. reflexivity.
    + vm_compute. reflexivity.
    + constructor; [| constructor]. eexists. split; [reflexivity |].
      vm_compute. reflexivity.
Defined.

Lemma get_blocked_text_names_witness :
  out_res (get_blocked Inbox.server Desk.bob []) = Raise TypeError.
Proof.
  apply (get_blocked_text_names Inbox.server Desk.bob [] "carol" []).
  vm_compute. reflexivity.
Defined.

Lemma get_friend_stories_filter_witness :
  out_res (get_friend_stories Inbox.server (PInt 0) Desk.bob [])
  = Ok (PList [Inbox.carol_story]) /\
  Forall story_kept [Inbox.carol_story].
Proof.
  assert (H : out_res (get_friend_stories Inbox.server (PInt 0) Desk.bob [])
              = Ok (PList [Inbox.carol_story])) by (vm_compute; reflexivity).
  split; [exact H |].
  exact (get_friend_stories_filter Inbox.server (PInt 0) Desk.bob []
           [Inbox.carol_story] H).
Defined.

(** ** [process_snap] of [bin/get_snaps.py] *)

Lemma map_keys_has_keys x snap :
  _map_keys x = Ok snap ->
  exists a b mt,
    py_getitem snap "sender" = Ok a /\ py_getitem snap "id" = Ok b /\
    py_getitem snap "media_type" = Ok mt.
Proof.
  destruct x; try discriminate. intros [= <-].
  do 3 eexists. repeat split; reflexivity.
Qed.

Ltac key_error_site :=
  first
  [ exfalso;
    match goal with
    | H : py_str _ _ = Raise (KeyError _) |- _ =>
        apply py_str_raise in H; discriminate H
    end
  | split; [reflexivity |]; split; [reflexivity |]; split; [reflexivity |];
    first [ left; reflexivity | right; left; reflexivity | right; right; reflexivity ] ].

Section Snap.
Context (E : Externals) (sh : Shell (World E)).

Lemma process_snap_trace snap path quiet s (w : World E) :
  wp (process_snap E sh snap path quiet)
     (fun r s' w' evs =>
        provider_then_request s evs /\
        username s' = username s /\ auth_token s' = auth_token s /\
        Forall (fun a =>
                  rq_endpoint a = "/bq/blob" /\ rq_req_type a = "get" /\
                  rq_auth_token a = auth_token s /\
                  exists id d,
                    py_getitem snap "id" = Ok id /\
                    rq_data a = Some d /\ d !! "id" = Some id)
               (requests evs) /\
        (forall k, r = Raise (KeyError k) ->
           evs = [] /\ w' = w /\ s' = s /\
           (py_getitem snap "sender" = Raise (KeyError k) \/
            py_getitem snap "id" = Raise (KeyError k) \/
            py_getitem snap "media_type" = Raise (KeyError k)))) s w.
Proof.
  unfold process_snap, get_blob, say, self_username.
  repeat wp_trace.
  all: simplify_eq.
  all: try congruence.
  all: self_simpl; simpl requests.
  all: split; [unfold provider_then_request; simpl;
               first [ exists [], []; simpl; solve [auto]
                     | eexists [], [_]; simpl; split; [reflexivity |]; split; solve [eauto]
                     | eexists [_], []; simpl; split; [reflexivity |]; split; solve [eauto]
                     | eexists [_], [_]; simpl; split; [reflexivity |]; split; solve [eauto] ] |].
  all: split; [reflexivity |]; split; [reflexivity |].
  all: split; [| intros k Hk; first [discriminate Hk
                                    | injection Hk as ->; key_error_site]].
  all: repeat (apply Forall_cons; split); try apply Forall_nil; try exact I.
  all: cbn [rq_endpoint rq_req_type rq_auth_token rq_data].
  all: split; [reflexivity |]; split; [reflexivity |]; split; [reflexivity |].
  all: do 2 eexists; split; [reflexivity |]; split; reflexivity.
Qed.

(** X19. [process_snap] makes at most one call to the identity provider
    and then at most one request, a [get] of [/bq/blob] that carries the
    snap's own [id] and the bearer token the object holds; it leaves the
    object's username and bearer token as they were. *)
Theorem process_snap_single_download snap path quiet s (w : World E) :
  let o := process_snap E sh snap path quiet s w in
  provider_then_request s (out_events o) /\
  username (out_self o) = username s /\ auth_token (out_self o) = auth_token s /\
  Forall (fun a =>
            rq_endpoint a = "/bq/blob" /\ rq_req_type a = "get" /\
            rq_auth_token a = auth_token s /\
            exists id d,
              py_getitem snap "id" = Ok id /\
              rq_data a = Some d /\ d !! "id" = Some id)
         (requests (out_events o)).
Proof.
  pose proof (process_snap_trace snap path quiet s w) as (H1 & H2 & H3 & H4 & _).
  repeat split; assumption.
Qed.

(** X20. When [process_snap] raises [KeyError], the key is one of
    [sender], [id] and [media_type] and is missing from the snap, and the
    exception comes out of the first statement: nothing was requested,
    printed or written, and the object is unchanged. *)
Theorem process_snap_KeyError snap path quiet s (w : World E) k :
  out_res (process_snap E sh snap path quiet s w) = Raise (KeyError k) ->
  process_snap E sh snap path quiet s w = mkOut (Raise (KeyError k)) s w [] /\
  In k ["sender"; "id"; "media_type"] /\
  py_getitem snap k = Raise (KeyError k).
Proof.
  intros Hk.
  pose proof (process_snap_trace snap path quiet s w) as (_ & _ & _ & _ & H).
  destruct (H k Hk) as (Hev & Hw & Hs & Hkeys).
  split.
  - destruct (process_snap E sh snap path quiet s w) as [r s' w' evs].
    cbn in *. subst. reflexivity.
  - assert (Hone : forall key, py_getitem snap key = Raise (KeyError k) -> k = key).
    { intros key Hkey. destruct snap; try discriminate. cbn in Hkey.
      destruct (_ !! key); [discriminate | congruence]. }
    destruct Hkeys as [Hkey | [Hkey | Hkey]]; pose proof (Hone _ Hkey) as ->;
      (split; [simpl; auto | exact Hkey]).
Qed.

(** X21. A snap that came out of [_map_keys], as every snap [get_snaps]
    returns does, never makes [process_snap] raise [KeyError]. *)
Theorem mapped_snap_no_KeyError x snap path quiet s (w : World E) k :
  _map_keys x = Ok snap ->
  out_res (process_snap E sh snap path quiet s w) <> Raise (KeyError k).
Proof.
  intros Hm Hk.
  destruct (map_keys_has_keys x snap Hm) as (a & b & mt & Ha & Hb & Hmt).
  pose proof (process_snap_trace snap path quiet s w) as (_ & _ & _ & _ & H).
  destruct (H k Hk) as (_ & _ & _ & [Hkey | [Hkey | Hkey]]); congruence.
Qed.

(** X22. When the file named [<sender>_<id>.<extension>] under [path]
    already exists, [process_snap] returns at once: no provider call, no
    request, nothing printed or written, and the object unchanged. *)
Theorem process_snap_skips_existing snap path quiet s (w : World E) a b mt sa sb :
  py_getitem snap "sender" = Ok a ->
  py_getitem snap "id" = Ok b ->
  py_getitem snap "media_type" = Ok mt ->
  py_str E a = Ok sa ->
  py_str E b = Ok sb ->
  let filename := sa ++ "_" ++ sb ++ "." ++ get_file_extension mt in
  let p := abspath sh (path_join sh path filename) w in
  fst (isfile sh (fst p) (snd p)) = true ->
  process_snap E sh snap path quiet s w =
    mkOut (Ok tt) s (snd (isfile sh (fst p) (snd p))) [].
Proof.
  intros Ha Hb Hmt Hsa Hsb filename p Hthere. subst filename p.
  unfold process_snap, bind, lift, ask, ret.
  rewrite Ha, Hb, Hmt, Hsa, Hsb.
  destruct (abspath sh (path_join sh path (sa ++ "_" ++ sb ++ "." ++ get_file_extension mt)) w)
    as [abs w1]. cbn [fst snd] in *.
  destruct (isfile sh abs w1) as [there w2]. cbn [fst snd] in *. subst there.
  reflexivity.
Qed.

End Snap.

Lemma process_snap_skips_existing_witness :
  process_snap Inbox.server Inbox.full_disk Inbox.mapped "out" false Desk.bob []
  = mkOut (Ok tt) Desk.bob [] [].
Proof.
  apply (process_snap_skips_existing Inbox.server Inbox.full_disk Inbox.mapped "out"
           false Desk.bob [] (PStr "carol") (PStr "42r") (PInt 0) "carol" "42r");
    vm_compute; reflexivity.
Defined.

Lemma process_snap_KeyError_witness :
  process_snap Inbox.server Inbox.console (PDict (dict [("sender", PStr "carol")]))
               "out" false Desk.bob []
  = mkOut (Raise (KeyError "id")) Desk.bob [] [] /\
  In "id" ["sender"; "id"; "media_type"] /\
  py_getitem (PDict (dict [("sender", PStr "carol")])) "id" = Raise (KeyError "id").
Proof.
  apply (process_snap_KeyError Inbox.server Inbox.console
           (PDict (dict [("sender", PStr "carol")])) "out" false Desk.bob [] "id").
  vm_compute. reflexivity.
Defined.

Lemma mapped_snap_no_KeyError_witness :
  _map_keys Inbox.carol_snap = Ok Inbox.mapped /\
  out_res (process_snap Inbox.server Inbox.console Inbox.mapped "out" false Desk.bob [])
  <> Raise (KeyError "id").
Proof.
  assert (H : _map_keys Inbox.carol_snap = Ok Inbox.mapped) by (vm_compute; reflexivity).
  split; [exact H |].
  exact (mapped_snap_no_KeyError Inbox.server Inbox.console Inbox.carol_snap Inbox.mapped
           "out" false Desk.bob [] "id" H).
Defined.

(** ** The listing methods and [get_updates] *)

Ltac after_updates :=
  intros s w; unfold bind;
  destruct (get_updates _ (PInt 0) s w) as [[result | e0] s1 w1 evs1];
  cbn [out_self out_events out_res out_world];
  [| split; [reflexivity |]; split; [reflexivity |];
     intros ? [= <-]; split; reflexivity ];
  unfold lift, ret, raise, say, ask;
  repeat match goal with
         | |- context [match ?r with Ok _ => _ | Raise _ => _ end] => destruct r
         | |- context [if ?b then _ else _] => destruct b
         end;
  cbn [out_self out_events out_res out_world];
  rewrite ?app_nil_r;
  (split; [reflexivity |]; split; [reflexivity |]; intros ? [=]).

Section Reading.
Context (E : Externals) (sh : Shell (World E)).

Lemma get_conversations_reads : reads_updates (get_conversations E sh).
Proof. unfold get_conversations. after_updates. Qed.

Lemma get_friends_reads : reads_updates (get_friends E).
Proof. unfold get_friends. after_updates. Qed.

(** X23. The six listing methods send nothing of their own: each makes
    exactly the provider call and the request of one [get_updates] call,
    leaves the object as that call leaves it, and passes on whatever that
    call raises. *)
Theorem listing_methods_read_updates :
  reads_updates (get_conversations E sh) /\
  reads_updates (get_snaps E sh) /\
  (forall t, reads_updates (get_friend_stories E t)) /\
  reads_updates (get_friends E) /\
  reads_updates (get_best_friends E) /\
  reads_updates (get_blocked E).
Proof.
  split; [apply get_conversations_reads |].
  split.
  { intros s w. destruct (get_conversations_reads s w) as (Hs & Hev & Hr).
    unfold get_snaps, bind.
    destruct (get_conversations E sh s w) as [[c | e] s1 w1 evs1];
      cbn [out_self out_events out_res out_world] in *.
    - unfold lift, ret.
      repeat match goal with
             | |- context [match ?r with Ok _ => _ | Raise _ => _ end] => destruct r
             end;
        cbn [out_self out_events out_res out_world]; rewrite ?app_nil_r;
        (split; [assumption |]; split; [assumption |]);
        intros e9 He; destruct (Hr e9 He) as [[=] _].
    - split; [assumption |]. split; [assumption |]. exact Hr. }
  split; [intros t; unfold get_friend_stories; after_updates |].
  split; [apply get_friends_reads |].
  split; [unfold get_best_friends; after_updates |].
  intros s w. destruct (get_friends_reads s w) as (Hs & Hev & Hr).
  unfold get_blocked, bind.
  destruct (get_friends E s w) as [[c | e] s1 w1 evs1];
    cbn [out_self out_events out_res out_world] in *.
  - unfold lift, ret.
    repeat match goal with
           | |- context [match ?r with Ok _ => _ | Raise _ => _ end] => destruct r
           end;
      cbn [out_self out_events out_res out_world]; rewrite ?app_nil_r;
      (split; [assumption |]; split; [assumption |]);
      intros e9 He; destruct (Hr e9 He) as [[=] _].
  - split; [assumption |]. split; [assumption |]. exact Hr.
Qed.
End Reading.
